(** * baickl/logger: a shallow embedding of logger.go

    The Go package keeps four package-level variables (threshold, console
    flag, console prefix, the active log handle) and talks to the operating
    system (clock, file system, standard error).  The embedding threads one
    [State] record holding both, and a small monad [M] for code that may
    panic.  Library calls ([os.Stat], [os.MkdirAll], [os.OpenFile],
    [log.Logger.Output], [fmt.Sprintf] with fixed formats) are modelled
    next to the code that uses them. *)

From stdpp Require Import gmap strings pretty.
From Stdlib Require Import ZArith Ascii String Lia.

Local Open Scope string_scope.

(** ** Text: the pieces of [fmt] and [strings] the package relies on *)

Module Fmt.

Definition LF : string := String (ascii_of_nat 10) EmptyString.
Definition TAB : string := String (ascii_of_nat 9) EmptyString.
Definition ESC : string := String (ascii_of_nat 27) EmptyString.
Definition QUOTE : string := String (ascii_of_nat 34) EmptyString.
Definition BACKSLASH : ascii := ascii_of_nat 92.
Definition SLASH : ascii := ascii_of_nat 47.

Fixpoint zeros (n : nat) : string :=
  match n with
  | O => ""
  | S k => "0" +:+ zeros k
  end.

(** [%d]: decimal, with a leading minus sign for negative numbers. *)
Definition d (z : Z) : string := pretty z.

(** [%0wd]: the digits are padded with zeros on the left until sign and
    digits together are [w] characters wide; longer numbers are not cut. *)
Definition d0 (w : nat) (z : Z) : string :=
  let digits := pretty (Z.abs z) in
  let sign := if (z <? 0)%Z then "-" else "" in
  sign +:+ zeros (w - String.length sign - String.length digits) +:+ digits.

(** [strings.TrimRight(s, "\n")]. *)
Fixpoint TrimRight_LF (s : string) : string :=
  match s with
  | EmptyString => EmptyString
  | String c r =>
      match TrimRight_LF r with
      | EmptyString =>
          if Ascii.eqb c (ascii_of_nat 10) then EmptyString
          else String c EmptyString
      | r' => String c r'
      end
  end.

Fixpoint join (sep : string) (l : list string) : string :=
  match l with
  | [] => ""
  | [x] => x
  | x :: r => x +:+ sep +:+ join sep r
  end.

(** [s] occurs somewhere inside [t]. *)
Definition contains (t s : string) : Prop :=
  exists pre post, t = pre +:+ s +:+ post.

End Fmt.

Import Fmt.

(** A Go [interface{}] argument, seen through the two renderings the package
    asks [fmt] for: [%v] (also what [Sprintln] uses) and [%#v]. *)
Record value := Value { fmt_v : string; fmt_sharp_v : string }.

(** [fmt.Sprintln(args...)]: operands separated by single spaces, newline
    appended. *)
Definition Sprintln (args : list value) : string :=
  join " " (map fmt_v args) +:+ LF.

(** ** Time: the observations of a [time.Time] the code makes *)

Record Time := mkTime {
  Year : Z; Month : Z; Day : Z;
  Hour : Z; Minute : Z; Second : Z;
  Nanosecond : Z;
  YearDay : Z
}.

(** ** Levels, colours, styles and flags (const blocks of logger.go) *)

Definition LEVEL := Z.
Definition ALL : LEVEL := 0%Z.
Definition DEBUG : LEVEL := 1%Z.
Definition INFO : LEVEL := 2%Z.
Definition WARN : LEVEL := 3%Z.
Definition ERROR : LEVEL := 4%Z.
Definition FATAL : LEVEL := 5%Z.

Definition CLR_RED : Z := 31%Z.
Definition CLR_YELLOW : Z := 33%Z.
Definition CLR_PURPLE : Z := 35%Z.
Definition CLR_DEFAULT : Z := 39%Z.
Definition STYLE_DEFAULT : Z := 0%Z.
Definition STYLE_HIGHLIGHT : Z := 1%Z.

(** [log.Ldate | log.Lmicroseconds | log.Lshortfile] *)
Definition Ldate : Z := 1%Z.
Definition Ltime : Z := 2%Z.
Definition Lmicroseconds : Z := 4%Z.
Definition Llongfile : Z := 8%Z.
Definition Lshortfile : Z := 16%Z.
Definition logFlags : Z := Z.lor Ldate (Z.lor Lmicroseconds Lshortfile).
Definition logConsoleFlag : Z := 0%Z.
Definition logDumpExceptionFlag : Z := 0%Z.
Definition logMaxSize : Z := (512 * 1024 * 1024)%Z.

(** ** The operating system *)

(** What [os.Stat] reports about a path, plus the chunks appended to a
    regular file while the model runs. *)
Record node := mkNode { IsDir : bool; Size : Z; data : list string }.

Definition dir_node : node := mkNode true 4096 [].
Definition empty_file : node := mkNode false 0 [].

(** The handle: nil or a [LOG_FILE].  An os.File pointer is a descriptor number
    (or nil); it is open while the descriptor table maps it to a path.  The
    embedded [sync.RWMutex] has no sequential content and is left out. *)
Record Logger := mkLogger { lg_out : option nat; lg_flags : Z }.

Record LOG_FILE := mkLOG_FILE {
  log_dir : string;
  log_filename : string;
  timestamp : Time;
  logfilepath : string;
  logfile : option nat;
  logger : option Logger
}.

Record State := mkState {
  (* package variables *)
  logLevel : LEVEL;
  logConsole : bool;
  logConsolePrefix : string;
  logFile : option LOG_FILE;
  (* operating system *)
  fs : gmap string node;
  fds : gmap nat string;
  next_fd : nat;
  denied : string -> bool;
  stderr : list string;
  stdout : list string;
  std_flags : Z;
  monitors : nat
}.

Definition set_logLevel (v : LEVEL) (s : State) : State :=
  mkState v (logConsole s) (logConsolePrefix s) (logFile s) (fs s) (fds s)
    (next_fd s) (denied s) (stderr s) (stdout s) (std_flags s) (monitors s).
Definition set_logConsole (v : bool) (s : State) : State :=
  mkState (logLevel s) v (logConsolePrefix s) (logFile s) (fs s) (fds s)
    (next_fd s) (denied s) (stderr s) (stdout s) (std_flags s) (monitors s).
Definition set_logConsolePrefix (v : string) (s : State) : State :=
  mkState (logLevel s) (logConsole s) v (logFile s) (fs s) (fds s)
    (next_fd s) (denied s) (stderr s) (stdout s) (std_flags s) (monitors s).
Definition set_logFile (v : option LOG_FILE) (s : State) : State :=
  mkState (logLevel s) (logConsole s) (logConsolePrefix s) v (fs s) (fds s)
    (next_fd s) (denied s) (stderr s) (stdout s) (std_flags s) (monitors s).
Definition set_fs (v : gmap string node) (s : State) : State :=
  mkState (logLevel s) (logConsole s) (logConsolePrefix s) (logFile s) v (fds s)
    (next_fd s) (denied s) (stderr s) (stdout s) (std_flags s) (monitors s).
Definition set_fds (v : gmap nat string) (s : State) : State :=
  mkState (logLevel s) (logConsole s) (logConsolePrefix s) (logFile s) (fs s) v
    (next_fd s) (denied s) (stderr s) (stdout s) (std_flags s) (monitors s).
Definition set_next_fd (v : nat) (s : State) : State :=
  mkState (logLevel s) (logConsole s) (logConsolePrefix s) (logFile s) (fs s) (fds s)
    v (denied s) (stderr s) (stdout s) (std_flags s) (monitors s).
Definition set_stderr (v : list string) (s : State) : State :=
  mkState (logLevel s) (logConsole s) (logConsolePrefix s) (logFile s) (fs s) (fds s)
    (next_fd s) (denied s) v (stdout s) (std_flags s) (monitors s).
Definition set_stdout (v : list string) (s : State) : State :=
  mkState (logLevel s) (logConsole s) (logConsolePrefix s) (logFile s) (fs s) (fds s)
    (next_fd s) (denied s) (stderr s) v (std_flags s) (monitors s).
Definition set_std_flags (v : Z) (s : State) : State :=
  mkState (logLevel s) (logConsole s) (logConsolePrefix s) (logFile s) (fs s) (fds s)
    (next_fd s) (denied s) (stderr s) (stdout s) v (monitors s).
Definition set_monitors (v : nat) (s : State) : State :=
  mkState (logLevel s) (logConsole s) (logConsolePrefix s) (logFile s) (fs s) (fds s)
    (next_fd s) (denied s) (stderr s) (stdout s) (std_flags s) v.

Module OS.

(** [os.Stat]: the entry at this path, or an error. *)
Definition Stat (path : string) (s : State) : option node := fs s !! path.

(** [os.MkdirAll(path, perm)] with the result ignored, as every call site
    does: nothing changes when something is already at [path] (a directory:
    success; a file: an error); otherwise the directory appears.  Parent
    directories are not tracked apart from the entry itself. *)
Definition MkdirAll (path : string) (s : State) : State :=
  match fs s !! path with
  | Some _ => s
  | None => set_fs (<[path := dir_node]> (fs s)) s
  end.

(** [os.OpenFile(path, O_RDWR|O_APPEND|O_CREATE, ModePerm)]: an error when
    the system refuses the path ([denied]: permissions, missing parent,
    descriptor limit) or the path is a directory; otherwise a fresh
    descriptor on the file, which is created empty when missing. *)
Definition OpenFile (path : string) (s : State) : option nat * State :=
  if denied s path then (None, s)
  else
    match fs s !! path with
    | Some n =>
        if IsDir n then (None, s)
        else (Some (next_fd s),
              set_next_fd (S (next_fd s)) (set_fds (<[next_fd s := path]> (fds s)) s))
    | None =>
        (Some (next_fd s),
         set_next_fd (S (next_fd s))
           (set_fds (<[next_fd s := path]> (fds s))
              (set_fs (<[path := empty_file]> (fs s)) s)))
    end.

(** [Close] on an os.File. *)
Definition Close (fd : nat) (s : State) : State :=
  set_fds (delete fd (fds s)) s.

(** [Write] on an os.File, through a possibly nil file: [false] is an error
    (nil receiver or closed descriptor).  Bytes written through a
    descriptor whose path has been removed meanwhile are not visible. *)
Definition Write (f : option nat) (bytes : string) (s : State) : bool * State :=
  match f with
  | None => (false, s)
  | Some fd =>
      match fds s !! fd with
      | None => (false, s)
      | Some path =>
          match fs s !! path with
          | Some n =>
              if IsDir n then (true, s)
              else (true,
                    set_fs (<[path := mkNode false
                                        (Size n + Z.of_nat (String.length bytes))
                                        (data n ++ [bytes])]> (fs s)) s)
          | None => (true, s)
          end
      end
  end.

End OS.

(** ** isFileExist (logger.go 1139-1149) *)

Definition isFileExist (file : string) (s : State) : bool :=
  match OS.Stat file s with
  | None => false
  | Some finfo => if IsDir finfo then false else true
  end.

(** ** The collision loop shared by newDumpFile and newlogfile

    [n := 1; for { fn = name(n); if !isFileExist(fn) { break }; n += 1 }],
    giving the [n] at which the loop breaks.  The loop has no bound in the
    source; [fuel] bounds the number of iterations here, [None] stands for
    a loop that is still running when the fuel is used up, and
    [probe_total] shows that this does not happen with [probe_fuel]: the
    number of entries of the file system plus one is always enough. *)
Fixpoint probe (exist : string -> bool) (name : N -> string)
    (fuel : nat) (n : N) : option N :=
  match fuel with
  | O => None
  | S k => if negb (exist (name n)) then Some n else probe exist name k (n + 1)%N
  end.

Definition probe_fuel (s : State) : nat := S (size (fs s)).

(** ** newDumpFile (logger.go 272-296) *)

Definition newDumpFile (now : Time) (s : State) : string * State :=
  let filename :=
    "exceptions." +:+ d0 2 (Hour now) +:+ "_" +:+ d0 2 (Minute now) +:+ "_" +:+ d0 2 (Second now) in
  let dir :=
    "./exceptions/" +:+ d0 4 (Year now) +:+ "-" +:+ d0 2 (Month now) +:+ "-" +:+ d0 2 (Day now)
      +:+ "/" in
  let s1 := OS.MkdirAll dir s in
  let fn := (dir +:+ filename) +:+ ".log" in
  if negb (isFileExist fn s1) then (fn, s1)
  else
    match probe (fun p => isFileExist p s1)
            (fun n => (dir +:+ filename) +:+ "_" +:+ d (Z.of_N n) +:+ ".log")
            (probe_fuel s1) 1%N with
    | Some n => ((dir +:+ filename) +:+ "_" +:+ d (Z.of_N n) +:+ ".log", s1)
    | None => (fn, s1)
    end.

(** ** LOG_FILE.newlogfile (logger.go 1104-1125) *)

Definition newlogfile (f : LOG_FILE) (s : State) : string * State :=
  let dir :=
    log_dir f +:+ "/" +:+ d0 4 (Year (timestamp f)) +:+ "-" +:+ d0 2 (Month (timestamp f))
      +:+ "-" +:+ d0 2 (Day (timestamp f)) +:+ "/" in
  let s1 := OS.MkdirAll dir s in
  let filename :=
    dir +:+ "/" +:+ log_filename f +:+ "." +:+ d0 2 (Hour (timestamp f))
      +:+ "_" +:+ d0 2 (Minute (timestamp f)) +:+ "_" +:+ d0 2 (Second (timestamp f)) in
  let fn := filename +:+ ".log" in
  if negb (isFileExist fn s1) then (fn, s1)
  else
    match probe (fun p => isFileExist p s1)
            (fun n => filename +:+ "_" +:+ d (Z.of_N n) +:+ ".log")
            (probe_fuel s1) 1%N with
    | Some n => (filename +:+ "_" +:+ d (Z.of_N n) +:+ ".log", s1)
    | None => (fn, s1)
    end.

(** ** Panics, deferred calls and [recover] *)

Inductive panic_value :=
  | IndexOutOfRange (index : Z)
  | NilDereference
  | ErrorValue (msg : string)
  | UserValue (v : value).

(** [%v] and [%#v] of a recovered value.  For the runtime's own errors
    and for [error] values the text Go prints under [%#v] is their Go
    syntax, which is not modelled: [panic_fmt_sharp_v] gives their message
    there. *)
Definition panic_fmt_v (p : panic_value) : string :=
  match p with
  | IndexOutOfRange i => "runtime error: index out of range [" +:+ d i +:+ "]"
  | NilDereference => "runtime error: invalid memory address or nil pointer dereference"
  | ErrorValue msg => msg
  | UserValue v => fmt_v v
  end.

Definition panic_fmt_sharp_v (p : panic_value) : string :=
  match p with
  | UserValue v => fmt_sharp_v v
  | _ => panic_fmt_v p
  end.

Inductive outcome (A : Type) :=
  | Returned (a : A)
  | Panicking (p : panic_value).
Arguments Returned {A} a.
Arguments Panicking {A} p.

Definition M (A : Type) : Type := State -> outcome A * State.

#[global] Instance M_ret : MRet M := fun A a s => (Returned a, s).
#[global] Instance M_bind : MBind M := fun A B k m s =>
  match m s with
  | (Returned a, s1) => k a s1
  | (Panicking p, s1) => (Panicking p, s1)
  end.

Definition panic {A} (p : panic_value) : M A := fun s => (Panicking p, s).
Definition modify (f : State -> State) : M unit := fun s => (Returned tt, f s).

(** A deferred call sees the panic in flight, if any, and says what is
    still in flight when it is done ([recover] takes it away). *)
Definition Deferred : Type := option panic_value -> State -> option panic_value * State.

Definition inflight {A} (o : outcome A) : option panic_value :=
  match o with
  | Returned _ => None
  | Panicking p => Some p
  end.

(** [defer d(); body] for a function without results. *)
Definition with_defer (dfr : Deferred) (body : M unit) : M unit := fun s =>
  let '(o, s1) := body s in
  let '(p, s2) := dfr (inflight o) s1 in
  (match p with
   | None => Returned tt
   | Some v => Panicking v
   end, s2).

(** ** The standard logger and [log.Logger] *)

(** [log.Println] on the standard logger: one more line on standard error.
    The line is recorded without its final newline and without the
    standard logger's own prefix, which is empty once [Initialize] has set
    its flags to [logConsoleFlag]. *)
Definition log_Println (msg : string) (s : State) : State :=
  set_stderr (stderr s ++ [msg]) s.

(** [fmt.Println]: one more line on standard output, recorded without its
    final newline. *)
Definition fmt_Println (msg : string) (s : State) : State :=
  set_stdout (stdout s ++ [msg]) s.

(** What the runtime tells a call: the clock as [log.Logger.Output] and as
    [console] read it, and the call site [runtime.Caller] reports. *)
Record Env := mkEnv {
  now_output : Time;
  now_console : Time;
  caller_file : string;
  caller_line : Z
}.

(** [for i := len(file) - 1; i > 0; i-- { if file[i] == '/' { short =
    file[i+1:]; break } }], in [console] and in the log package alike. *)
Fixpoint after_last_slash (s : string) : option string :=
  match s with
  | EmptyString => None
  | String c r =>
      match after_last_slash r with
      | Some t => Some t
      | None => if Ascii.eqb c SLASH then Some r else None
      end
  end.

Definition short_file (file : string) : string :=
  match file with
  | EmptyString => file
  | String _ r => default file (after_last_slash r)
  end.

Definition has (flag bits : Z) : bool := negb (Z.land flag bits =? 0)%Z.

(** [formatHeader] of the log package (empty prefix). *)
Definition formatHeader (flag : Z) (t : Time) (file : string) (line : Z) : string :=
  (if has flag (Z.lor Ldate (Z.lor Ltime Lmicroseconds)) then
     (if has flag Ldate then
        d0 4 (Year t) +:+ "/" +:+ d0 2 (Month t) +:+ "/" +:+ d0 2 (Day t) +:+ " "
      else "") +:+
     (if has flag (Z.lor Ltime Lmicroseconds) then
        d0 2 (Hour t) +:+ ":" +:+ d0 2 (Minute t) +:+ ":" +:+ d0 2 (Second t) +:+
        (if has flag Lmicroseconds then "." +:+ d0 6 (Nanosecond t / 1000)%Z else "") +:+ " "
      else "")
   else "") +:+
  (if has flag (Z.lor Lshortfile Llongfile) then
     (if has flag Lshortfile then short_file file else file) +:+ ":" +:+ d line +:+ ": "
   else "").

Fixpoint ends_with_LF (s : string) : bool :=
  match s with
  | EmptyString => false
  | String c EmptyString => Ascii.eqb c (ascii_of_nat 10)
  | String _ r => ends_with_LF r
  end.

(** The bytes one [Output] call hands to its writer. *)
Definition log_record (flag : Z) (t : Time) (file : string) (line : Z) (s : string) : string :=
  formatHeader flag t file line +:+ s +:+ (if ends_with_LF s then "" else LF).

(** [l.Output(calldepth, s)] on a possibly nil [*log.Logger]: a nil logger
    is dereferenced (panic); the writer's error is the result, which no
    call site looks at. *)
Definition Logger_Output (e : Env) (l : option Logger) (s : string) : M unit :=
  match l with
  | None => panic NilDereference
  | Some lg =>
      modify (fun st =>
        snd (OS.Write (lg_out lg)
               (log_record (lg_flags lg) (now_output e) (caller_file e) (caller_line e) s) st))
  end.

(** ** SprintColor (logger.go 145-151)

    [bc + 10] is computed over [Z]; Go's [int] would wrap only for a
    background code within 10 of the largest [int], and [console] passes
    [CLR_DEFAULT] alone. *)

Definition SprintColor (str : string) (s fc bc : Z) : string :=
  let _fc := fc in
  let _bc := (bc + 10)%Z in
  ESC +:+ "[" +:+ d s +:+ ";" +:+ d _bc +:+ ";" +:+ d _fc +:+ "m" +:+ str +:+ ESC +:+ "[0m".

(** ** console (logger.go 1164-1201) *)

Definition console_stamp (now : Time) : string :=
  "==>[" +:+ d0 4 (Year now) +:+ "/" +:+ d0 2 (Month now) +:+ "/" +:+ d0 2 (Day now)
    +:+ "_" +:+ d0 2 (Hour now) +:+ ":" +:+ d0 2 (Minute now) +:+ ":" +:+ d0 2 (Second now)
    +:+ "." +:+ d0 6 (Nanosecond now / 1000)%Z +:+ "]".

Definition console_context (e : Env) (prefix args : string) : string :=
  let file := short_file (caller_file e) in
  if (0 <? String.length prefix)%nat then
    console_stamp (now_console e) +:+ " @" +:+ prefix +:+ " #" +:+ file +:+ ":"
      +:+ d (caller_line e) +:+ " " +:+ args
  else
    console_stamp (now_console e) +:+ " #" +:+ file +:+ ":"
      +:+ d (caller_line e) +:+ " " +:+ args.

Definition console_line (e : Env) (prefix : string) (ll : LEVEL) (args : string) : string :=
  let context := console_context e prefix args in
  if (ll =? DEBUG)%Z then SprintColor context STYLE_DEFAULT CLR_DEFAULT CLR_DEFAULT
  else if (ll =? INFO)%Z then SprintColor context STYLE_DEFAULT CLR_DEFAULT CLR_DEFAULT
  else if (ll =? WARN)%Z then SprintColor context STYLE_DEFAULT CLR_YELLOW CLR_DEFAULT
  else if (ll =? ERROR)%Z then SprintColor context STYLE_HIGHLIGHT CLR_RED CLR_DEFAULT
  else if (ll =? FATAL)%Z then SprintColor context STYLE_HIGHLIGHT CLR_PURPLE CLR_DEFAULT
  else SprintColor context STYLE_DEFAULT CLR_DEFAULT CLR_DEFAULT.

Definition console (e : Env) (ll : LEVEL) (args : string) : M unit :=
  modify (fun st =>
    if logConsole st then
      log_Println (console_line e (logConsolePrefix st) ll args) st
    else st).

(** ** catchError (logger.go 1215-1219)

    Every [panic_value] prints, so [log.Println("err", err)] succeeds
    here.  [Fallible.catchError] below is the same function over values
    whose printing can panic. *)

Definition catchError : Deferred := fun p st =>
  match p with
  | Some err => (None, log_Println ("err " +:+ panic_fmt_v err) st)
  | None => (None, st)
  end.

(** ** SetConsole, SetConsolePrefix, SetLevel (logger.go 94-128) *)

Definition SetConsole (isConsole : bool) : M unit := modify (set_logConsole isConsole).
Definition SetConsolePrefix (prefix : string) : M unit := modify (set_logConsolePrefix prefix).
Definition SetLevel (_level : LEVEL) : M unit := modify (set_logLevel _level).

(** ** V (logger.go 298-307) *)

Definition Verbose := bool.

Definition V (level : LEVEL) (st : State) : Verbose :=
  if (logLevel st >=? level)%Z then true else false.

(** ** The thirty emission entry points (logger.go 309-565 and 579-965)

    Each one is written out as in the source.  [RLock] and the deferred
    [RUnlock] around [Output] have no sequential content and are left out;
    a panic in [Output] skips [console] and reaches the deferred
    [catchError].  [fmt.Sprintf] with a caller-supplied format is a
    parameter. *)

Section Emission.

Variable Sprintf : string -> list value -> string.

Definition Verbose_Debug (e : Env) (v : Verbose) (arg : value) : M unit := fun st0 =>
  if negb v then (Returned tt, st0)
  else
    with_defer catchError (fun st =>
      let context := "DEBUG " +:+ Sprintln [arg] in
      let context := TrimRight_LF context in
      (match logFile st with
       | Some f => Logger_Output e (logger f) context
       | None => mret tt
       end ;; console e DEBUG context) st) st0.

Definition Verbose_Info (e : Env) (v : Verbose) (arg : value) : M unit := fun st0 =>
  if negb v then (Returned tt, st0)
  else
    with_defer catchError (fun st =>
      let context := "INFO " +:+ Sprintln [arg] in
      let context := TrimRight_LF context in
      (match logFile st with
       | Some f => Logger_Output e (logger f) context
       | None => mret tt
       end ;; console e INFO context) st) st0.

Definition Verbose_Warn (e : Env) (v : Verbose) (arg : value) : M unit := fun st0 =>
  if negb v then (Returned tt, st0)
  else
    with_defer catchError (fun st =>
      let context := "WARN " +:+ Sprintln [arg] in
      let context := TrimRight_LF context in
      (match logFile st with
       | Some f => Logger_Output e (logger f) context
       | None => mret tt
       end ;; console e WARN context) st) st0.

Definition Verbose_Error (e : Env) (v : Verbose) (arg : value) : M unit := fun st0 =>
  if negb v then (Returned tt, st0)
  else
    with_defer catchError (fun st =>
      let context := "ERROR " +:+ Sprintln [arg] in
      let context := TrimRight_LF context in
      (match logFile st with
       | Some f => Logger_Output e (logger f) context
       | None => mret tt
       end ;; console e ERROR context) st) st0.

Definition Verbose_Fatal (e : Env) (v : Verbose) (arg : value) : M unit := fun st0 =>
  if negb v then (Returned tt, st0)
  else
    with_defer catchError (fun st =>
      let context := "FATAL " +:+ Sprintln [arg] in
      let context := TrimRight_LF context in
      (match logFile st with
       | Some f => Logger_Output e (logger f) context
       | None => mret tt
       end ;; console e FATAL context) st) st0.

Definition Verbose_Debugf (e : Env) (v : Verbose) (format : string) (args : list value) : M unit := fun st0 =>
  if negb v then (Returned tt, st0)
  else
    with_defer catchError (fun st =>
      let context := "DEBUG " +:+ Sprintf format args in
      let context := TrimRight_LF context in
      (match logFile st with
       | Some f => Logger_Output e (logger f) context
       | None => mret tt
       end ;; console e DEBUG context) st) st0.

Definition Verbose_Infof (e : Env) (v : Verbose) (format : string) (args : list value) : M unit := fun st0 =>
  if negb v then (Returned tt, st0)
  else
    with_defer catchError (fun st =>
      let context := "INFO " +:+ Sprintf format args in
      let context := TrimRight_LF context in
      (match logFile st with
       | Some f => Logger_Output e (logger f) context
       | None => mret tt
       end ;; console e INFO context) st) st0.

Definition Verbose_Warnf (e : Env) (v : Verbose) (format : string) (args : list value) : M unit := fun st0 =>
  if negb v then (Returned tt, st0)
  else
    with_defer catchError (fun st =>
      let context := "WARN " +:+ Sprintf format args in
      let context := TrimRight_LF context in
      (match logFile st with
       | Some f => Logger_Output e (logger f) context
       | None => mret tt
       end ;; console e WARN context) st) st0.

Definition Verbose_Errorf (e : Env) (v : Verbose) (format : string) (args : list value) : M unit := fun st0 =>
  if negb v then (Returned tt, st0)
  else
    with_defer catchError (fun st =>
      let context := "ERROR " +:+ Sprintf format args in
      let context := TrimRight_LF context in
      (match logFile st with
       | Some f => Logger_Output e (logger f) context
       | None => mret tt
       end ;; console e ERROR context) st) st0.

Definition Verbose_Fatalf (e : Env) (v : Verbose) (format : string) (args : list value) : M unit := fun st0 =>
  if negb v then (Returned tt, st0)
  else
    with_defer catchError (fun st =>
      let context := "FATAL " +:+ Sprintf format args in
      let context := TrimRight_LF context in
      (match logFile st with
       | Some f => Logger_Output e (logger f) context
       | None => mret tt
       end ;; console e FATAL context) st) st0.

Definition Verbose_Debugln (e : Env) (v : Verbose) (args : list value) : M unit := fun st0 =>
  if negb v then (Returned tt, st0)
  else
    with_defer catchError (fun st =>
      let context := "DEBUG " +:+ Sprintln args in
      let context := TrimRight_LF context in
      (match logFile st with
       | Some f => Logger_Output e (logger f) context
       | None => mret tt
       end ;; console e DEBUG context) st) st0.

Definition Verbose_Infoln (e : Env) (v : Verbose) (args : list value) : M unit := fun st0 =>
  if negb v then (Returned tt, st0)
  else
    with_defer catchError (fun st =>
      let context := "INFO " +:+ Sprintln args in
      let context := TrimRight_LF context in
      (match logFile st with
       | Some f => Logger_Output e (logger f) context
       | None => mret tt
       end ;; console e INFO context) st) st0.

Definition Verbose_Warnln (e : Env) (v : Verbose) (args : list value) : M unit := fun st0 =>
  if negb v then (Returned tt, st0)
  else
    with_defer catchError (fun st =>
      let context := "WARN " +:+ Sprintln args in
      let context := TrimRight_LF context in
      (match logFile st with
       | Some f => Logger_Output e (logger f) context
       | None => mret tt
       end ;; console e WARN context) st) st0.

Definition Verbose_Errorln (e : Env) (v : Verbose) (args : list value) : M unit := fun st0 =>
  if negb v then (Returned tt, st0)
  else
    with_defer catchError (fun st =>
      let context := "ERROR " +:+ Sprintln args in
      let context := TrimRight_LF context in
      (match logFile st with
       | Some f => Logger_Output e (logger f) context
       | None => mret tt
       end ;; console e ERROR context) st) st0.

Definition Verbose_Fatalln (e : Env) (v : Verbose) (args : list value) : M unit := fun st0 =>
  if negb v then (Returned tt, st0)
  else
    with_defer catchError (fun st =>
      let context := "FATAL " +:+ Sprintln args in
      let context := TrimRight_LF context in
      (match logFile st with
       | Some f => Logger_Output e (logger f) context
       | None => mret tt
       end ;; console e FATAL context) st) st0.

Definition Debug (e : Env) (arg : value) : M unit :=
  with_defer catchError (fun st =>
    if (logLevel st <=? DEBUG)%Z then
      let context := "DEBUG " +:+ Sprintln [arg] in
      let context := TrimRight_LF context in
      (match logFile st with
       | Some f => Logger_Output e (logger f) context
       | None => mret tt
       end ;; console e DEBUG context) st
    else (Returned tt, st)).

Definition Info (e : Env) (arg : value) : M unit :=
  with_defer catchError (fun st =>
    if (logLevel st <=? INFO)%Z then
      let context := "INFO " +:+ Sprintln [arg] in
      let context := TrimRight_LF context in
      (match logFile st with
       | Some f => Logger_Output e (logger f) context
       | None => mret tt
       end ;; console e INFO context) st
    else (Returned tt, st)).

Definition Warn (e : Env) (arg : value) : M unit :=
  with_defer catchError (fun st =>
    if (logLevel st <=? WARN)%Z then
      let context := "WARN " +:+ Sprintln [arg] in
      let context := TrimRight_LF context in
      (match logFile st with
       | Some f => Logger_Output e (logger f) context
       | None => mret tt
       end ;; console e WARN context) st
    else (Returned tt, st)).

Definition Error (e : Env) (arg : value) : M unit :=
  with_defer catchError (fun st =>
    if (logLevel st <=? ERROR)%Z then
      let context := "ERROR " +:+ Sprintln [arg] in
      let context := TrimRight_LF context in
      (match logFile st with
       | Some f => Logger_Output e (logger f) context
       | None => mret tt
       end ;; console e ERROR context) st
    else (Returned tt, st)).

Definition Fatal (e : Env) (arg : value) : M unit :=
  with_defer catchError (fun st =>
    if (logLevel st <=? FATAL)%Z then
      let context := "FATAL " +:+ Sprintln [arg] in
      let context := TrimRight_LF context in
      (match logFile st with
       | Some f => Logger_Output e (logger f) context
       | None => mret tt
       end ;; console e FATAL context) st
    else (Returned tt, st)).

Definition Debugf (e : Env) (format : string) (args : list value) : M unit :=
  with_defer catchError (fun st =>
    if (logLevel st <=? DEBUG)%Z then
      let context := "DEBUG " +:+ Sprintf format args in
      let context := TrimRight_LF context in
      (match logFile st with
       | Some f => Logger_Output e (logger f) context
       | None => mret tt
       end ;; console e DEBUG context) st
    else (Returned tt, st)).

Definition Infof (e : Env) (format : string) (args : list value) : M unit :=
  with_defer catchError (fun st =>
    if (logLevel st <=? INFO)%Z then
      let context := "INFO " +:+ Sprintf format args in
      let context := TrimRight_LF context in
      (match logFile st with
       | Some f => Logger_Output e (logger f) context
       | None => mret tt
       end ;; console e INFO context) st
    else (Returned tt, st)).

Definition Warnf (e : Env) (format : string) (args : list value) : M unit :=
  with_defer catchError (fun st =>
    if (logLevel st <=? WARN)%Z then
      let context := "WARN " +:+ Sprintf format args in
      let context := TrimRight_LF context in
      (match logFile st with
       | Some f => Logger_Output e (logger f) context
       | None => mret tt
       end ;; console e WARN context) st
    else (Returned tt, st)).

Definition Errorf (e : Env) (format : string) (args : list value) : M unit :=
  with_defer catchError (fun st =>
    if (logLevel st <=? ERROR)%Z then
      let context := "ERROR " +:+ Sprintf format args in
      let context := TrimRight_LF context in
      (match logFile st with
       | Some f => Logger_Output e (logger f) context
       | None => mret tt
       end ;; console e ERROR context) st
    else (Returned tt, st)).

Definition Fatalf (e : Env) (format : string) (args : list value) : M unit :=
  with_defer catchError (fun st =>
    if (logLevel st <=? FATAL)%Z then
      let context := "FATAL " +:+ Sprintf format args in
      let context := TrimRight_LF context in
      (match logFile st with
       | Some f => Logger_Output e (logger f) context
       | None => mret tt
       end ;; console e FATAL context) st
    else (Returned tt, st)).

Definition Debugln (e : Env) (args : list value) : M unit :=
  with_defer catchError (fun st =>
    if (logLevel st <=? DEBUG)%Z then
      let context := "DEBUG " +:+ Sprintln args in
      let context := TrimRight_LF context in
      (match logFile st with
       | Some f => Logger_Output e (logger f) context
       | None => mret tt
       end ;; console e DEBUG context) st
    else (Returned tt, st)).

Definition Infoln (e : Env) (args : list value) : M unit :=
  with_defer catchError (fun st =>
    if (logLevel st <=? INFO)%Z then
      let context := "INFO " +:+ Sprintln args in
      let context := TrimRight_LF context in
      (match logFile st with
       | Some f => Logger_Output e (logger f) context
       | None => mret tt
       end ;; console e INFO context) st
    else (Returned tt, st)).

Definition Warnln (e : Env) (args : list value) : M unit :=
  with_defer catchError (fun st =>
    if (logLevel st <=? WARN)%Z then
      let context := "WARN " +:+ Sprintln args in
      let context := TrimRight_LF context in
      (match logFile st with
       | Some f => Logger_Output e (logger f) context
       | None => mret tt
       end ;; console e WARN context) st
    else (Returned tt, st)).

Definition Errorln (e : Env) (args : list value) : M unit :=
  with_defer catchError (fun st =>
    if (logLevel st <=? ERROR)%Z then
      let context := "ERROR " +:+ Sprintln args in
      let context := TrimRight_LF context in
      (match logFile st with
       | Some f => Logger_Output e (logger f) context
       | None => mret tt
       end ;; console e ERROR context) st
    else (Returned tt, st)).

Definition Fatalln (e : Env) (args : list value) : M unit :=
  with_defer catchError (fun st =>
    if (logLevel st <=? FATAL)%Z then
      let context := "FATAL " +:+ Sprintln args in
      let context := TrimRight_LF context in
      (match logFile st with
       | Some f => Logger_Output e (logger f) context
       | None => mret tt
       end ;; console e FATAL context) st
    else (Returned tt, st)).

End Emission.

(** ** checkFileDate, checkFileSize, checkFileExist, isMustRename
       (logger.go 979-1065) *)

Definition checkFileDate (f : LOG_FILE) (now : Time) : bool :=
  if negb (YearDay now =? YearDay (timestamp f))%Z then true else false.

Definition checkFileSize (f : LOG_FILE) (st : State) : bool :=
  match OS.Stat (logfilepath f) st with
  | None => false
  | Some fileInfo => if (Size fileInfo >=? logMaxSize)%Z then true else false
  end.

Definition checkFileExist (f : LOG_FILE) (st : State) : bool :=
  if negb (isFileExist (logfilepath f) st) then true else false.

Definition isMustRename (f : LOG_FILE) (now : Time) (st : State) : bool * State :=
  if checkFileDate f now then (true, st)
  else if checkFileSize f st then (true, st)
  else if checkFileExist f st then (true, st)
  else (false, OS.MkdirAll (log_dir f) st).

(** ** LOG_FILE.rename (logger.go 1079-1090)

    The receiver is the handle the package variable points to (its only
    caller is [fileCheck], on [logFile]), so [logFile.logfile] in the
    source is the field just assigned. *)

Definition rename (f : LOG_FILE) (now : Time) (st : State) : State :=
  let f1 := mkLOG_FILE (log_dir f) (log_filename f) now (logfilepath f) (logfile f) (logger f) in
  let '(fn, st1) := newlogfile f1 st in
  let st2 := match logfile f1 with
             | Some fd => OS.Close fd st1
             | None => st1
             end in
  let '(file, st3) := OS.OpenFile fn st2 in
  let lg := mkLogger file logFlags in
  set_logFile (Some (mkLOG_FILE (log_dir f1) (log_filename f1) (timestamp f1) fn file (Some lg))) st3.

(** ** fileCheck (logger.go 1255-1263): one tick of fileMonitor *)

Definition fileCheck (now_check now_rename : Time) : M unit :=
  with_defer catchError (fun st =>
    match logFile st with
    | Some f =>
        let '(must, st1) := isMustRename f now_check st in
        if must then (Returned tt, rename f now_rename st1)
        else (Returned tt, st1)
    | None => (Returned tt, st)
    end).

(** ** fileMonitor (logger.go 1233-1241)

    The loop has no exit.  A finite stretch of it is the list of its ticker
    events, each with the two clock readings its [fileCheck] makes. *)

Fixpoint fileMonitor (ticks : list (Time * Time)) : M unit :=
  match ticks with
  | [] => mret tt
  | (now_check, now_rename) :: rest =>
      fileCheck now_check now_rename ;; fileMonitor rest
  end.

(** ** Initialize (logger.go 170-198) *)

Fixpoint last_byte (s : string) : option ascii :=
  match s with
  | EmptyString => None
  | String c EmptyString => Some c
  | String _ r => last_byte r
  end.

Fixpoint drop_last (s : string) : string :=
  match s with
  | EmptyString => EmptyString
  | String c EmptyString => EmptyString
  | String c r => String c (drop_last r)
  end.

Definition Initialize (fileDir fileName : string) (now : Time) : M unit := fun st =>
  match last_byte fileDir with
  | None => (Panicking (IndexOutOfRange (Z.of_nat (String.length fileDir) - 1)), st)
  | Some c =>
      let dir := if Ascii.eqb c BACKSLASH || Ascii.eqb c SLASH
                 then drop_last fileDir else fileDir in
      let f := mkLOG_FILE dir fileName now "" None None in
      let st1 := set_logFile (Some f) st in
      let '(fn, st2) := newlogfile f st1 in
      match OS.OpenFile fn st2 with
      | (None, st3) => (Panicking (ErrorValue ("open " +:+ fn)), st3)
      | (Some fd, st3) =>
          let f' := mkLOG_FILE dir fileName now fn (Some fd) (Some (mkLogger (Some fd) logFlags)) in
          (Returned tt,
           set_monitors (S (monitors st3))
             (set_std_flags logConsoleFlag (set_logFile (Some f') st3)))
      end
  end.

(** ** CatchException (logger.go 235-258)

    Meant to be deferred: [fault] is what [recover] finds, [stack] what
    [debug.Stack] returns. *)

Fixpoint copies (n : nat) (s : string) : string :=
  match n with
  | O => ""
  | S k => s +:+ copies k s
  end.

Definition dump_block (err : panic_value) (stack : string) : string :=
  LF +:+ copies 79 "=" +:+ LF
    +:+ "EXCEPTION: " +:+ panic_fmt_sharp_v err +:+ copies 19 TAB +:+ LF
    +:+ copies 79 "=" +:+ copies 2 TAB +:+ LF
    +:+ stack.

Definition CatchException (now : Time) (stack : string) : Deferred := fun fault st =>
  match fault with
  | Some err =>
      let '(fn, st1) := newDumpFile now st in
      match OS.OpenFile fn st1 with
      | (None, st2) => (None, st2)
      | (Some fd, st2) =>
          let lg := mkLogger (Some fd) logDumpExceptionFlag in
          let strLog := dump_block err stack in
          let st3 := snd (OS.Write (lg_out lg)
                            (log_record (lg_flags lg) now "" 0 (strLog +:+ LF)) st2) in
          let st4 := fmt_Println strLog st3 in
          (None, OS.Close fd st4)
      end
  | None => (None, st)
  end.

(** ** The entry points as one family

    Severity and call shape select one of the fifteen package-level
    functions, or one of the fifteen methods of [Verbose]. *)

Inductive severity := SevDebug | SevInfo | SevWarn | SevError | SevFatal.

Inductive shape :=
  | Plain (arg : value)
  | Formatted (format : string) (args : list value)
  | Line (args : list value).

Definition level_of (sv : severity) : LEVEL :=
  match sv with
  | SevDebug => DEBUG
  | SevInfo => INFO
  | SevWarn => WARN
  | SevError => ERROR
  | SevFatal => FATAL
  end.

Definition severity_name (sv : severity) : string :=
  match sv with
  | SevDebug => "DEBUG"
  | SevInfo => "INFO"
  | SevWarn => "WARN"
  | SevError => "ERROR"
  | SevFatal => "FATAL"
  end.

Section Family.

Variable Sprintf : string -> list value -> string.

Definition call_plain (e : Env) (sv : severity) (sh : shape) : M unit :=
  match sv, sh with
  | SevDebug, Plain a => Debug e a
  | SevInfo, Plain a => Info e a
  | SevWarn, Plain a => Warn e a
  | SevError, Plain a => Error e a
  | SevFatal, Plain a => Fatal e a
  | SevDebug, Formatted fm a => Debugf Sprintf e fm a
  | SevInfo, Formatted fm a => Infof Sprintf e fm a
  | SevWarn, Formatted fm a => Warnf Sprintf e fm a
  | SevError, Formatted fm a => Errorf Sprintf e fm a
  | SevFatal, Formatted fm a => Fatalf Sprintf e fm a
  | SevDebug, Line a => Debugln e a
  | SevInfo, Line a => Infoln e a
  | SevWarn, Line a => Warnln e a
  | SevError, Line a => Errorln e a
  | SevFatal, Line a => Fatalln e a
  end.

Definition call_verbose (e : Env) (v : Verbose) (sv : severity) (sh : shape) : M unit :=
  match sv, sh with
  | SevDebug, Plain a => Verbose_Debug e v a
  | SevInfo, Plain a => Verbose_Info e v a
  | SevWarn, Plain a => Verbose_Warn e v a
  | SevError, Plain a => Verbose_Error e v a
  | SevFatal, Plain a => Verbose_Fatal e v a
  | SevDebug, Formatted fm a => Verbose_Debugf Sprintf e v fm a
  | SevInfo, Formatted fm a => Verbose_Infof Sprintf e v fm a
  | SevWarn, Formatted fm a => Verbose_Warnf Sprintf e v fm a
  | SevError, Formatted fm a => Verbose_Errorf Sprintf e v fm a
  | SevFatal, Formatted fm a => Verbose_Fatalf Sprintf e v fm a
  | SevDebug, Line a => Verbose_Debugln e v a
  | SevInfo, Line a => Verbose_Infoln e v a
  | SevWarn, Line a => Verbose_Warnln e v a
  | SevError, Line a => Verbose_Errorln e v a
  | SevFatal, Line a => Verbose_Fatalln e v a
  end.

(** The text of the record an entry point builds from its arguments. *)
Definition record_text (sv : severity) (sh : shape) : string :=
  TrimRight_LF
    (severity_name sv +:+ " " +:+
     match sh with
     | Plain a => Sprintln [a]
     | Formatted fm a => Sprintf fm a
     | Line a => Sprintln a
     end).

End Family.

(** ** Arguments whose formatting fails

    The entry points above take their arguments already rendered, which
    is what [fmt] does with nearly every value: it even catches a panic of
    a [String] or [Error] method and prints [%!v(PANIC=String method: ...)]
    in its place.  It gives up in one case: when the value such a method
    panicked with panics again while [fmt] prints it, [fmt] re-panics with
    the value of that second panic.  This module writes the thirty entry
    points and [catchError] out once more over such arguments; on
    arguments that render they are the entry points above
    ([fallible_agrees]). *)

Module Fallible.

(** What a panic carries, seen through what [fmt] does when it prints it:
    a value that prints, or one whose printing panics out of [fmt] with
    [next]. *)
Inductive thrown :=
  | Printable (p : panic_value)
  | Unprintable (next : thrown).

(** An argument: it renders, or formatting it panics out of [fmt]. *)
Inductive operand :=
  | Renders (v : value)
  | Throws (t : thrown).

(** The result of one call of [fmt.Sprintln] or [fmt.Sprintf]. *)
Inductive rendered :=
  | Text (s : string)
  | Thrown (t : thrown).

Inductive result (A : Type) :=
  | Done (a : A)
  | Raised (t : thrown).
Arguments Done {A} a.
Arguments Raised {A} t.

Definition F (A : Type) : Type := State -> result A * State.

#[global] Instance F_ret : MRet F := fun A a s => (Done a, s).
#[global] Instance F_bind : MBind F := fun A B k m s =>
  match m s with
  | (Done a, s1) => k a s1
  | (Raised t, s1) => (Raised t, s1)
  end.

(** Code of the package that cannot fail in formatting: its panics are
    runtime errors, which print. *)
Definition lift {A} (m : M A) : F A := fun s =>
  match m s with
  | (Returned a, s1) => (Done a, s1)
  | (Panicking p, s1) => (Raised (Printable p), s1)
  end.

Definition fmt (r : rendered) : F string := fun s =>
  match r with
  | Text t => (Done t, s)
  | Thrown t => (Raised t, s)
  end.

Definition Deferred : Type := option thrown -> State -> option thrown * State.

Definition inflight {A} (o : result A) : option thrown :=
  match o with
  | Done _ => None
  | Raised t => Some t
  end.

Definition with_defer (dfr : Deferred) (body : F unit) : F unit := fun s =>
  let '(o, s1) := body s in
  let '(t, s2) := dfr (inflight o) s1 in
  (match t with
   | None => Done tt
   | Some v => Raised v
   end, s2).

(** [fmt.Sprintln(args...)]: the operands are formatted from left to
    right, so the first one that fails decides. *)
Fixpoint render_all (args : list operand) : list string + thrown :=
  match args with
  | [] => inl []
  | Throws t :: _ => inr t
  | Renders v :: rest =>
      match render_all rest with
      | inl texts => inl (fmt_v v :: texts)
      | inr t => inr t
      end
  end.

Definition Sprintln (args : list operand) : rendered :=
  match render_all args with
  | inl texts => Text (join " " texts +:+ LF)
  | inr t => Thrown t
  end.

(** catchError (logger.go 1215-1219): [recover] ends the panic in flight;
    [log.Println("err", err)] then formats the recovered value, and when
    that panics, the new panic leaves the deferred call. *)
Definition catchError : Deferred := fun p st =>
  match p with
  | Some (Printable err) => (None, log_Println ("err " +:+ panic_fmt_v err) st)
  | Some (Unprintable next) => (Some next, st)
  | None => (None, st)
  end.

Section Emission.

Variable Sprintf : string -> list operand -> rendered.

Definition Verbose_Debug (e : Env) (v : Verbose) (arg : operand) : F unit := fun st0 =>
  if negb v then (Done tt, st0)
  else
    with_defer catchError (fun st =>
      (msg ← fmt (Sprintln [arg]);
       let context := "DEBUG " +:+ msg in
       let context := TrimRight_LF context in
       (match logFile st with
        | Some f => lift (Logger_Output e (logger f) context)
        | None => mret tt
        end ;; lift (console e DEBUG context))) st) st0.

Definition Verbose_Info (e : Env) (v : Verbose) (arg : operand) : F unit := fun st0 =>
  if negb v then (Done tt, st0)
  else
    with_defer catchError (fun st =>
      (msg ← fmt (Sprintln [arg]);
       let context := "INFO " +:+ msg in
       let context := TrimRight_LF context in
       (match logFile st with
        | Some f => lift (Logger_Output e (logger f) context)
        | None => mret tt
        end ;; lift (console e INFO context))) st) st0.

Definition Verbose_Warn (e : Env) (v : Verbose) (arg : operand) : F unit := fun st0 =>
  if negb v then (Done tt, st0)
  else
    with_defer catchError (fun st =>
      (msg ← fmt (Sprintln [arg]);
       let context := "WARN " +:+ msg in
       let context := TrimRight_LF context in
       (match logFile st with
        | Some f => lift (Logger_Output e (logger f) context)
        | None => mret tt
        end ;; lift (console e WARN context))) st) st0.

Definition Verbose_Error (e : Env) (v : Verbose) (arg : operand) : F unit := fun st0 =>
  if negb v then (Done tt, st0)
  else
    with_defer catchError (fun st =>
      (msg ← fmt (Sprintln [arg]);
       let context := "ERROR " +:+ msg in
       let context := TrimRight_LF context in
       (match logFile st with
        | Some f => lift (Logger_Output e (logger f) context)
        | None => mret tt
        end ;; lift (console e ERROR context))) st) st0.

Definition Verbose_Fatal (e : Env) (v : Verbose) (arg : operand) : F unit := fun st0 =>
  if negb v then (Done tt, st0)
  else
    with_defer catchError (fun st =>
      (msg ← fmt (Sprintln [arg]);
       let context := "FATAL " +:+ msg in
       let context := TrimRight_LF context in
       (match logFile st with
        | Some f => lift (Logger_Output e (logger f) context)
        | None => mret tt
        end ;; lift (console e FATAL context))) st) st0.

Definition Verbose_Debugf (e : Env) (v : Verbose) (format : string) (args : list operand) : F unit := fun st0 =>
  if negb v then (Done tt, st0)
  else
    with_defer catchError (fun st =>
      (msg ← fmt (Sprintf format args);
       let context := "DEBUG " +:+ msg in
       let context := TrimRight_LF context in
       (match logFile st with
        | Some f => lift (Logger_Output e (logger f) context)
        | None => mret tt
        end ;; lift (console e DEBUG context))) st) st0.

Definition Verbose_Infof (e : Env) (v : Verbose) (format : string) (args : list operand) : F unit := fun st0 =>
  if negb v then (Done tt, st0)
  else
    with_defer catchError (fun st =>
      (msg ← fmt (Sprintf format args);
       let context := "INFO " +:+ msg in
       let context := TrimRight_LF context in
       (match logFile st with
        | Some f => lift (Logger_Output e (logger f) context)
        | None => mret tt
        end ;; lift (console e INFO context))) st) st0.

Definition Verbose_Warnf (e : Env) (v : Verbose) (format : string) (args : list operand) : F unit := fun st0 =>
  if negb v then (Done tt, st0)
  else
    with_defer catchError (fun st =>
      (msg ← fmt (Sprintf format args);
       let context := "WARN " +:+ msg in
       let context := TrimRight_LF context in
       (match logFile st with
        | Some f => lift (Logger_Output e (logger f) context)
        | None => mret tt
        end ;; lift (console e WARN context))) st) st0.

Definition Verbose_Errorf (e : Env) (v : Verbose) (format : string) (args : list operand) : F unit := fun st0 =>
  if negb v then (Done tt, st0)
  else
    with_defer catchError (fun st =>
      (msg ← fmt (Sprintf format args);
       let context := "ERROR " +:+ msg in
       let context := TrimRight_LF context in
       (match logFile st with
        | Some f => lift (Logger_Output e (logger f) context)
        | None => mret tt
        end ;; lift (console e ERROR context))) st) st0.

Definition Verbose_Fatalf (e : Env) (v : Verbose) (format : string) (args : list operand) : F unit := fun st0 =>
  if negb v then (Done tt, st0)
  else
    with_defer catchError (fun st =>
      (msg ← fmt (Sprintf format args);
       let context := "FATAL " +:+ msg in
       let context := TrimRight_LF context in
       (match logFile st with
        | Some f => lift (Logger_Output e (logger f) context)
        | None => mret tt
        end ;; lift (console e FATAL context))) st) st0.

Definition Verbose_Debugln (e : Env) (v : Verbose) (args : list operand) : F unit := fun st0 =>
  if negb v then (Done tt, st0)
  else
    with_defer catchError (fun st =>
      (msg ← fmt (Sprintln args);
       let context := "DEBUG " +:+ msg in
       let context := TrimRight_LF context in
       (match logFile st with
        | Some f => lift (Logger_Output e (logger f) context)
        | None => mret tt
        end ;; lift (console e DEBUG context))) st) st0.

Definition Verbose_Infoln (e : Env) (v : Verbose) (args : list operand) : F unit := fun st0 =>
  if negb v then (Done tt, st0)
  else
    with_defer catchError (fun st =>
      (msg ← fmt (Sprintln args);
       let context := "INFO " +:+ msg in
       let context := TrimRight_LF context in
       (match logFile st with
        | Some f => lift (Logger_Output e (logger f) context)
        | None => mret tt
        end ;; lift (console e INFO context))) st) st0.

Definition Verbose_Warnln (e : Env) (v : Verbose) (args : list operand) : F unit := fun st0 =>
  if negb v then (Done tt, st0)
  else
    with_defer catchError (fun st =>
      (msg ← fmt (Sprintln args);
       let context := "WARN " +:+ msg in
       let context := TrimRight_LF context in
       (match logFile st with
        | Some f => lift (Logger_Output e (logger f) context)
        | None => mret tt
        end ;; lift (console e WARN context))) st) st0.

Definition Verbose_Errorln (e : Env) (v : Verbose) (args : list operand) : F unit := fun st0 =>
  if negb v then (Done tt, st0)
  else
    with_defer catchError (fun st =>
      (msg ← fmt (Sprintln args);
       let context := "ERROR " +:+ msg in
       let context := TrimRight_LF context in
       (match logFile st with
        | Some f => lift (Logger_Output e (logger f) context)
        | None => mret tt
        end ;; lift (console e ERROR context))) st) st0.

Definition Verbose_Fatalln (e : Env) (v : Verbose) (args : list operand) : F unit := fun st0 =>
  if negb v then (Done tt, st0)
  else
    with_defer catchError (fun st =>
      (msg ← fmt (Sprintln args);
       let context := "FATAL " +:+ msg in
       let context := TrimRight_LF context in
       (match logFile st with
        | Some f => lift (Logger_Output e (logger f) context)
        | None => mret tt
        end ;; lift (console e FATAL context))) st) st0.

Definition Debug (e : Env) (arg : operand) : F unit :=
  with_defer catchError (fun st =>
    if (logLevel st <=? DEBUG)%Z then
      (msg ← fmt (Sprintln [arg]);
       let context := "DEBUG " +:+ msg in
       let context := TrimRight_LF context in
       (match logFile st with
        | Some f => lift (Logger_Output e (logger f) context)
        | None => mret tt
        end ;; lift (console e DEBUG context))) st
    else (Done tt, st)).

Definition Info (e : Env) (arg : operand) : F unit :=
  with_defer catchError (fun st =>
    if (logLevel st <=? INFO)%Z then
      (msg ← fmt (Sprintln [arg]);
       let context := "INFO " +:+ msg in
       let context := TrimRight_LF context in
       (match logFile st with
        | Some f => lift (Logger_Output e (logger f) context)
        | None => mret tt
        end ;; lift (console e INFO context))) st
    else (Done tt, st)).

Definition Warn (e : Env) (arg : operand) : F unit :=
  with_defer catchError (fun st =>
    if (logLevel st <=? WARN)%Z then
      (msg ← fmt (Sprintln [arg]);
       let context := "WARN " +:+ msg in
       let context := TrimRight_LF context in
       (match logFile st with
        | Some f => lift (Logger_Output e (logger f) context)
        | None => mret tt
        end ;; lift (console e WARN context))) st
    else (Done tt, st)).

Definition Error (e : Env) (arg : operand) : F unit :=
  with_defer catchError (fun st =>
    if (logLevel st <=? ERROR)%Z then
      (msg ← fmt (Sprintln [arg]);
       let context := "ERROR " +:+ msg in
       let context := TrimRight_LF context in
       (match logFile st with
        | Some f => lift (Logger_Output e (logger f) context)
        | None => mret tt
        end ;; lift (console e ERROR context))) st
    else (Done tt, st)).

Definition Fatal (e : Env) (arg : operand) : F unit :=
  with_defer catchError (fun st =>
    if (logLevel st <=? FATAL)%Z then
      (msg ← fmt (Sprintln [arg]);
       let context := "FATAL " +:+ msg in
       let context := TrimRight_LF context in
       (match logFile st with
        | Some f => lift (Logger_Output e (logger f) context)
        | None => mret tt
        end ;; lift (console e FATAL context))) st
    else (Done tt, st)).

Definition Debugf (e : Env) (format : string) (args : list operand) : F unit :=
  with_defer catchError (fun st =>
    if (logLevel st <=? DEBUG)%Z then
      (msg ← fmt (Sprintf format args);
       let context := "DEBUG " +:+ msg in
       let context := TrimRight_LF context in
       (match logFile st with
        | Some f => lift (Logger_Output e (logger f) context)
        | None => mret tt
        end ;; lift (console e DEBUG context))) st
    else (Done tt, st)).

Definition Infof (e : Env) (format : string) (args : list operand) : F unit :=
  with_defer catchError (fun st =>
    if (logLevel st <=? INFO)%Z then
      (msg ← fmt (Sprintf format args);
       let context := "INFO " +:+ msg in
       let context := TrimRight_LF context in
       (match logFile st with
        | Some f => lift (Logger_Output e (logger f) context)
        | None => mret tt
        end ;; lift (console e INFO context))) st
    else (Done tt, st)).

Definition Warnf (e : Env) (format : string) (args : list operand) : F unit :=
  with_defer catchError (fun st =>
    if (logLevel st <=? WARN)%Z then
      (msg ← fmt (Sprintf format args);
       let context := "WARN " +:+ msg in
       let context := TrimRight_LF context in
       (match logFile st with
        | Some f => lift (Logger_Output e (logger f) context)
        | None => mret tt
        end ;; lift (console e WARN context))) st
    else (Done tt, st)).

Definition Errorf (e : Env) (format : string) (args : list operand) : F unit :=
  with_defer catchError (fun st =>
    if (logLevel st <=? ERROR)%Z then
      (msg ← fmt (Sprintf format args);
       let context := "ERROR " +:+ msg in
       let context := TrimRight_LF context in
       (match logFile st with
        | Some f => lift (Logger_Output e (logger f) context)
        | None => mret tt
        end ;; lift (console e ERROR context))) st
    else (Done tt, st)).

Definition Fatalf (e : Env) (format : string) (args : list operand) : F unit :=
  with_defer catchError (fun st =>
    if (logLevel st <=? FATAL)%Z then
      (msg ← fmt (Sprintf format args);
       let context := "FATAL " +:+ msg in
       let context := TrimRight_LF context in
       (match logFile st with
        | Some f => lift (Logger_Output e (logger f) context)
        | None => mret tt
        end ;; lift (console e FATAL context))) st
    else (Done tt, st)).

Definition Debugln (e : Env) (args : list operand) : F unit :=
  with_defer catchError (fun st =>
    if (logLevel st <=? DEBUG)%Z then
      (msg ← fmt (Sprintln args);
       let context := "DEBUG " +:+ msg in
       let context := TrimRight_LF context in
       (match logFile st with
        | Some f => lift (Logger_Output e (logger f) context)
        | None => mret tt
        end ;; lift (console e DEBUG context))) st
    else (Done tt, st)).

Definition Infoln (e : Env) (args : list operand) : F unit :=
  with_defer catchError (fun st =>
    if (logLevel st <=? INFO)%Z then
      (msg ← fmt (Sprintln args);
       let context := "INFO " +:+ msg in
       let context := TrimRight_LF context in
       (match logFile st with
        | Some f => lift (Logger_Output e (logger f) context)
        | None => mret tt
        end ;; lift (console e INFO context))) st
    else (Done tt, st)).

Definition Warnln (e : Env) (args : list operand) : F unit :=
  with_defer catchError (fun st =>
    if (logLevel st <=? WARN)%Z then
      (msg ← fmt (Sprintln args);
       let context := "WARN " +:+ msg in
       let context := TrimRight_LF context in
       (match logFile st with
        | Some f => lift (Logger_Output e (logger f) context)
        | None => mret tt
        end ;; lift (console e WARN context))) st
    else (Done tt, st)).

Definition Errorln (e : Env) (args : list operand) : F unit :=
  with_defer catchError (fun st =>
    if (logLevel st <=? ERROR)%Z then
      (msg ← fmt (Sprintln args);
       let context := "ERROR " +:+ msg in
       let context := TrimRight_LF context in
       (match logFile st with
        | Some f => lift (Logger_Output e (logger f) context)
        | None => mret tt
        end ;; lift (console e ERROR context))) st
    else (Done tt, st)).

Definition Fatalln (e : Env) (args : list operand) : F unit :=
  with_defer catchError (fun st =>
    if (logLevel st <=? FATAL)%Z then
      (msg ← fmt (Sprintln args);
       let context := "FATAL " +:+ msg in
       let context := TrimRight_LF context in
       (match logFile st with
        | Some f => lift (Logger_Output e (logger f) context)
        | None => mret tt
        end ;; lift (console e FATAL context))) st
    else (Done tt, st)).

Inductive shape :=
  | Plain (arg : operand)
  | Formatted (format : string) (args : list operand)
  | Line (args : list operand).

Definition call_plain (e : Env) (sv : severity) (sh : shape) : F unit :=
  match sv, sh with
  | SevDebug, Plain a => Debug e a
  | SevInfo, Plain a => Info e a
  | SevWarn, Plain a => Warn e a
  | SevError, Plain a => Error e a
  | SevFatal, Plain a => Fatal e a
  | SevDebug, Formatted fm a => Debugf e fm a
  | SevInfo, Formatted fm a => Infof e fm a
  | SevWarn, Formatted fm a => Warnf e fm a
  | SevError, Formatted fm a => Errorf e fm a
  | SevFatal, Formatted fm a => Fatalf e fm a
  | SevDebug, Line a => Debugln e a
  | SevInfo, Line a => Infoln e a
  | SevWarn, Line a => Warnln e a
  | SevError, Line a => Errorln e a
  | SevFatal, Line a => Fatalln e a
  end.

Definition call_verbose (e : Env) (v : Verbose) (sv : severity) (sh : shape) : F unit :=
  match sv, sh with
  | SevDebug, Plain a => Verbose_Debug e v a
  | SevInfo, Plain a => Verbose_Info e v a
  | SevWarn, Plain a => Verbose_Warn e v a
  | SevError, Plain a => Verbose_Error e v a
  | SevFatal, Plain a => Verbose_Fatal e v a
  | SevDebug, Formatted fm a => Verbose_Debugf e v fm a
  | SevInfo, Formatted fm a => Verbose_Infof e v fm a
  | SevWarn, Formatted fm a => Verbose_Warnf e v fm a
  | SevError, Formatted fm a => Verbose_Errorf e v fm a
  | SevFatal, Formatted fm a => Verbose_Fatalf e v fm a
  | SevDebug, Line a => Verbose_Debugln e v a
  | SevInfo, Line a => Verbose_Infoln e v a
  | SevWarn, Line a => Verbose_Warnln e v a
  | SevError, Line a => Verbose_Errorln e v a
  | SevFatal, Line a => Verbose_Fatalln e v a
  end.

(** What the one call of [fmt] an entry point makes on its arguments
    gives. *)
Definition message (sh : shape) : rendered :=
  match sh with
  | Plain a => Sprintln [a]
  | Formatted fm a => Sprintf fm a
  | Line a => Sprintln a
  end.

(** What every entry point does once it is past its gate. *)
Definition emit (e : Env) (sv : severity) (r : rendered) : F unit :=
  with_defer catchError (fun st =>
    (msg ← fmt r;
     let context := TrimRight_LF (severity_name sv +:+ " " +:+ msg) in
     (match logFile st with
      | Some f => lift (Logger_Output e (logger f) context)
      | None => mret tt
      end ;; lift (console e (level_of sv) context))) st).

End Emission.

End Fallible.

(** An argument list of the entry points above, as operands. *)
Definition fallible_shape (sh : shape) : Fallible.shape :=
  match sh with
  | Plain a => Fallible.Plain (Fallible.Renders a)
  | Formatted fm a => Fallible.Formatted fm (map Fallible.Renders a)
  | Line a => Fallible.Line (map Fallible.Renders a)
  end.

(** ** The two name computations as one family *)

Inductive namer :=
  | LogName (f : LOG_FILE)
  | DumpName (now : Time).

(** The name without suffix and extension, and the directory made first. *)
Definition name_dir (nm : namer) : string :=
  match nm with
  | LogName f =>
      log_dir f +:+ "/" +:+ d0 4 (Year (timestamp f)) +:+ "-" +:+ d0 2 (Month (timestamp f))
        +:+ "-" +:+ d0 2 (Day (timestamp f)) +:+ "/"
  | DumpName now =>
      "./exceptions/" +:+ d0 4 (Year now) +:+ "-" +:+ d0 2 (Month now) +:+ "-" +:+ d0 2 (Day now)
        +:+ "/"
  end.

Definition name_base (nm : namer) : string :=
  match nm with
  | LogName f =>
      name_dir nm +:+ "/" +:+ log_filename f +:+ "." +:+ d0 2 (Hour (timestamp f))
        +:+ "_" +:+ d0 2 (Minute (timestamp f)) +:+ "_" +:+ d0 2 (Second (timestamp f))
  | DumpName now =>
      name_dir nm +:+
      ("exceptions." +:+ d0 2 (Hour now) +:+ "_" +:+ d0 2 (Minute now) +:+ "_" +:+ d0 2 (Second now))
  end.

(** The candidate names in the order the code tries them: index 0 is the
    plain name, index n >= 1 carries the suffix [_n]. *)
Definition candidate (nm : namer) (n : N) : string :=
  if (n =? 0)%N then name_base nm +:+ ".log"
  else name_base nm +:+ "_" +:+ d (Z.of_N n) +:+ ".log".

Definition name_of (nm : namer) (st : State) : string :=
  match nm with
  | LogName f => fst (newlogfile f st)
  | DumpName now => fst (newDumpFile now st)
  end.

(** Every regular file of [st] is still one in [st']. *)
Definition files_kept (st st' : State) : Prop :=
  forall p, isFileExist p st = true -> isFileExist p st' = true.

(** ** Notions used to state the properties *)

(** What every entry point does once it is past its gate; the entry points
    above are not defined through it. *)
Definition emit (e : Env) (ll : LEVEL) (context : string) : M unit :=
  with_defer catchError (fun st =>
    (match logFile st with
     | Some f => Logger_Output e (logger f) context
     | None => mret tt
     end ;; console e ll context) st).

(** The handle is absent, or has its logger: what [Initialize] leaves when
    it returns and [rename] keeps. *)
Definition handle_ok (st : State) : bool :=
  match logFile st with
  | Some f => match logger f with Some _ => true | None => false end
  | None => true
  end.

(** The bytes the handle's logger writes for one record. *)
Definition file_record (e : Env) (lg : Logger) (text : string) : string :=
  log_record (lg_flags lg) (now_output e) (caller_file e) (caller_line e) text.

(** In [st'] the handle still has the file it had in [st], open. *)
Definition keeps_previous_handle (st st' : State) : Prop :=
  exists f f' fd,
    logFile st = Some f /\ logFile st' = Some f' /\
    logfile f = Some fd /\ logfile f' = Some fd /\ is_Some (fds st' !! fd).

(** [rename] up to its [os.OpenFile] call: the new name, and the state in
    which the open is attempted. *)
Definition rename_prepare (f : LOG_FILE) (now : Time) (st : State) : string * State :=
  let f1 := mkLOG_FILE (log_dir f) (log_filename f) now (logfilepath f) (logfile f) (logger f) in
  let '(fn, st1) := newlogfile f1 st in
  (fn, match logfile f1 with
       | Some fd => OS.Close fd st1
       | None => st1
       end).

Definition set_denied (v : string -> bool) (s : State) : State :=
  mkState (logLevel s) (logConsole s) (logConsolePrefix s) (logFile s) (fs s) (fds s)
    (next_fd s) v (stderr s) (stdout s) (std_flags s) (monitors s).

(** The package variables and the handle are the same in both states. *)
Definition same_package (st st' : State) : Prop :=
  logLevel st' = logLevel st /\ logConsole st' = logConsole st /\
  logConsolePrefix st' = logConsolePrefix st /\ logFile st' = logFile st.

(** Every open descriptor is the one the handle [f] holds. *)
Definition only_handle_open (f : LOG_FILE) (st : State) : Prop :=
  forall k, is_Some (fds st !! k) -> logfile f = Some k.

Fixpoint has_slash (s : string) : bool :=
  match s with
  | EmptyString => false
  | String c r => Ascii.eqb c SLASH || has_slash r
  end.

(** The message part of a record, before trimming. *)
Definition message (Sprintf : string -> list value -> string) (sh : shape) : string :=
  match sh with
  | Plain a => Sprintln [a]
  | Formatted fm a => Sprintf fm a
  | Line a => Sprintln a
  end.

(** ** Sample inputs for the examples below *)

(** The package variables as Go initialises them, on an empty disk. *)
Definition st_boot : State :=
  mkState ALL true "" None ∅ ∅ 0 (fun _ => false) [] [] 3 0.

Definition t_sample : Time := mkTime 2015 5 16 10 22 33 123456000 136.
Definition t_later : Time := mkTime 2015 5 17 0 0 7 5000 137.
Definition e_sample : Env := mkEnv t_sample t_sample "/src/app/main.go" 42.
Definition f_sample : LOG_FILE := mkLOG_FILE "./log" "login" t_sample "" None None.
Definition boom : value := Value "boom" (QUOTE +:+ "boom" +:+ QUOTE).


(** One log file has been created for [t_sample]. *)
Definition st_one_log : State :=
  snd (OS.OpenFile (fst (newlogfile f_sample st_boot)) (snd (newlogfile f_sample st_boot))).

(** A handle in steady state: created at [t_sample], its file open. *)
Definition st_running : State := snd (Initialize "./log/" "login" t_sample st_boot).

Definition f_running : LOG_FILE := default f_sample (logFile st_running).

(** The same, but from now on the system refuses every open. *)
Definition st_refusing : State := set_denied (fun _ => true) st_running.

(** The handle after an [Initialize] that panicked on its open and was
    recovered by the caller: present, without file and logger. *)
Definition st_broken : State :=
  snd (Initialize "./log/" "login" t_sample (set_denied (fun _ => true) st_boot)).

(** * Properties *)

(** ** Text *)

Lemma append_cons (c : ascii) (s t : string) : String c s +:+ t = String c (s +:+ t).
Proof. reflexivity. Qed.

Lemma append_length (s t : string) :
  String.length (s +:+ t) = (String.length s + String.length t)%nat.
Proof.
  induction s as [|c s IH]; [done |].
  rewrite append_cons. simpl. by rewrite IH.
Qed.

Lemma append_assoc (s t u : string) : (s +:+ t) +:+ u = s +:+ (t +:+ u).
Proof.
  induction s as [|c s IH]; [done |].
  rewrite !append_cons. by rewrite IH.
Qed.

Lemma append_nil_r (s : string) : s +:+ "" = s.
Proof.
  induction s as [|c s IH]; [done |].
  rewrite append_cons. by rewrite IH.
Qed.

Lemma append_cancel_r (t s1 s2 : string) : s1 +:+ t = s2 +:+ t -> s1 = s2.
Proof.
  revert s2; induction s1 as [|c s1 IH]; intros [|c2 s2] H.
  - done.
  - apply (f_equal String.length) in H.
    rewrite !append_length in H. simpl in H. lia.
  - apply (f_equal String.length) in H.
    rewrite !append_length in H. simpl in H. lia.
  - rewrite !append_cons in H. injection H as -> H. f_equal. by apply IH.
Qed.

Example TrimRight_LF_strips_all :
  TrimRight_LF ("DEBUG a" +:+ LF +:+ "b" +:+ LF +:+ LF) = "DEBUG a" +:+ LF +:+ "b" /\
  TrimRight_LF ("INFO " +:+ Sprintln []) = "INFO ".
Proof. split; reflexivity. Qed.

Example short_file_keeps_leading_slash :
  short_file "/main.go" = "/main.go" /\ short_file "/src/app/main.go" = "main.go".
Proof. split; reflexivity. Qed.

Example d0_pads :
  d0 2 7 = "07" /\ d0 4 2015 = "2015" /\ d0 6 5 = "000005" /\ d0 2 123 = "123".
Proof. repeat split; reflexivity. Qed.

(** ** The file system *)

Lemma isFileExist_MkdirAll (dir p : string) (st : State) :
  isFileExist p (OS.MkdirAll dir st) = isFileExist p st.
Proof.
  unfold isFileExist, OS.Stat, OS.MkdirAll.
  destruct (fs st !! dir) eqn:Hd; [done |]. simpl.
  destruct (decide (dir = p)) as [<- | Hne].
  - by rewrite lookup_insert_eq, Hd.
  - by rewrite lookup_insert_ne.
Qed.

Lemma isFileExist_Some (p : string) (st : State) :
  isFileExist p st = true -> is_Some (fs st !! p).
Proof.
  unfold isFileExist, OS.Stat. destruct (fs st !! p); [eauto | done].
Qed.

(** ** The collision loop *)

Section Probe.

Variable exist : string -> bool.
Variable name : N -> string.
Hypothesis name_inj : forall i j, name i = name j -> i = j.

Lemma probe_total (fuel : nat) :
  forall (m : gmap string node) (n : N),
    (forall k, (n <= k)%N -> exist (name k) = true -> is_Some (m !! name k)) ->
    size m < fuel ->
    is_Some (probe exist name fuel n).
Proof.
  induction fuel as [|fuel IH]; intros m n Hm Hsz; [lia |].
  simpl. destruct (exist (name n)) eqn:Hex; simpl; [| eauto].
  destruct (Hm n ltac:(lia) Hex) as [x Hx].
  apply (IH (delete (name n) m)).
  - intros k Hk Hek.
    rewrite lookup_delete_ne.
    + apply Hm; [lia | done].
    + intros Heq. apply name_inj in Heq. lia.
  - assert (size m <> 0) as Hne.
    { intros H0. apply map_size_empty_iff in H0. subst m.
      by rewrite lookup_empty in Hx. }
    rewrite map_size_delete, Hx. simpl. lia.
Qed.

Lemma probe_first (fuel : nat) :
  forall (n k : N),
    probe exist name fuel n = Some k ->
    (n <= k)%N /\ exist (name k) = false /\
    forall j, (n <= j < k)%N -> exist (name j) = true.
Proof.
  induction fuel as [|fuel IH]; intros n k H; [done |].
  simpl in H. destruct (exist (name n)) eqn:Hex; simpl in H.
  - apply IH in H as (Hle & Hk & Hbelow).
    split; [lia |]. split; [done |].
    intros j Hj. destruct (decide (j = n)) as [-> | Hne]; [done |].
    apply Hbelow. lia.
  - injection H as <-. split; [lia |]. split; [done |]. intros j Hj. lia.
Qed.

End Probe.

Section FirstFree.

Variable base : string.
Variable st : State.

Let suffixed (n : N) : string := base +:+ "_" +:+ d (Z.of_N n) +:+ ".log".
Let cand (n : N) : string := if (n =? 0)%N then base +:+ ".log" else suffixed n.

(** The shape both name computations have after their [os.MkdirAll]. *)
Let pick (s1 : State) : string * State :=
  if negb (isFileExist (base +:+ ".log") s1) then (base +:+ ".log", s1)
  else
    match probe (fun p => isFileExist p s1) suffixed (probe_fuel s1) 1%N with
    | Some n => (suffixed n, s1)
    | None => (base +:+ ".log", s1)
    end.

Lemma suffixed_inj (i j : N) : suffixed i = suffixed j -> i = j.
Proof.
  unfold suffixed. intros H.
  apply (inj (String.app base)) in H.
  apply (inj (String.app "_")) in H.
  apply append_cancel_r in H.
  apply (inj pretty) in H. lia.
Qed.

Lemma cand_inj (i j : N) : cand i = cand j -> i = j.
Proof.
  unfold cand.
  destruct (N.eqb_spec i 0) as [-> | Hi], (N.eqb_spec j 0) as [-> | Hj]; intros H.
  - done.
  - unfold suffixed in H. apply (inj (String.app base)) in H. discriminate H.
  - unfold suffixed in H. apply (inj (String.app base)) in H. discriminate H.
  - by apply suffixed_inj.
Qed.

(** The loop ends within its fuel. *)
Lemma pick_loop_ends (s1 : State) :
  is_Some (probe (fun p => isFileExist p s1) suffixed (probe_fuel s1) 1%N).
Proof.
  apply (probe_total _ _ suffixed_inj _ (fs s1)).
  - intros k _ Hk. by apply isFileExist_Some.
  - unfold probe_fuel. lia.
Qed.

(** The name picked is the candidate of the smallest index that is not an
    existing file. *)
Lemma pick_first_free (dir : string) :
  snd (pick (OS.MkdirAll dir st)) = OS.MkdirAll dir st /\
  exists n, fst (pick (OS.MkdirAll dir st)) = cand n /\
    isFileExist (cand n) st = false /\
    forall j, (j < n)%N -> isFileExist (cand j) st = true.
Proof.
  unfold pick. set (s1 := OS.MkdirAll dir st).
  destruct (isFileExist (base +:+ ".log") s1) eqn:H0; cbn [negb].
  - destruct (pick_loop_ends s1) as [n Hn]. rewrite Hn. cbn [fst snd].
    split; [done |]. exists n.
    apply probe_first in Hn as (Hle & Hfree & Hbelow).
    unfold s1 in *. rewrite isFileExist_MkdirAll in Hfree, H0.
    unfold cand. destruct (N.eqb_spec n 0) as [-> | Hne]; [lia |].
    split; [done |]. split; [done |].
    intros j Hj. destruct (N.eqb_spec j 0) as [-> | Hj0]; [done |].
    specialize (Hbelow j ltac:(lia)). by rewrite isFileExist_MkdirAll in Hbelow.
  - split; [done |]. exists 0%N. unfold s1 in H0. rewrite isFileExist_MkdirAll in H0.
    split; [done |]. split; [done |]. intros j Hj. lia.
Qed.

End FirstFree.

Lemma candidate_inj (nm : namer) (i j : N) : candidate nm i = candidate nm j -> i = j.
Proof. apply cand_inj. Qed.

Lemma newlogfile_state (f : LOG_FILE) (st : State) :
  snd (newlogfile f st) = OS.MkdirAll (name_dir (LogName f)) st.
Proof.
  exact (proj1 (pick_first_free (name_base (LogName f)) st (name_dir (LogName f)))).
Qed.

Lemma newDumpFile_state (now : Time) (st : State) :
  snd (newDumpFile now st) = OS.MkdirAll (name_dir (DumpName now)) st.
Proof.
  exact (proj1 (pick_first_free (name_base (DumpName now)) st (name_dir (DumpName now)))).
Qed.

Lemma name_first_free (nm : namer) (st : State) :
  exists n, name_of nm st = candidate nm n /\
    isFileExist (candidate nm n) st = false /\
    forall j, (j < n)%N -> isFileExist (candidate nm j) st = true.
Proof.
  destruct nm as [f | now].
  - exact (proj2 (pick_first_free (name_base (LogName f)) st (name_dir (LogName f)))).
  - exact (proj2 (pick_first_free (name_base (DumpName now)) st (name_dir (DumpName now)))).
Qed.

(** Opening a path never takes a regular file away. *)
Lemma files_kept_OpenFile (p : string) (st : State) :
  files_kept st (snd (OS.OpenFile p st)).
Proof.
  intros q Hq. unfold OS.OpenFile.
  destruct (denied st p); [done |].
  destruct (fs st !! p) as [n |] eqn:Hp.
  - destruct (IsDir n); done.
  - simpl. unfold isFileExist, OS.Stat in *. simpl.
    destruct (decide (p = q)) as [<- | Hne].
    + by rewrite lookup_insert_eq.
    + by rewrite lookup_insert_ne.
Qed.

Lemma files_kept_MkdirAll (dir : string) (st : State) :
  files_kept st (OS.MkdirAll dir st).
Proof. intros q Hq. by rewrite isFileExist_MkdirAll. Qed.

Lemma files_kept_trans (s1 s2 s3 : State) :
  files_kept s1 s2 -> files_kept s2 s3 -> files_kept s1 s3.
Proof. unfold files_kept. eauto. Qed.

(** C6. The name computed for a log file or a crash dump is the first
    candidate, in the order plain, [_1], [_2], ..., that is not an existing
    file: the loop ends, every earlier candidate exists, the chosen one does
    not.  Once the chosen name exists too (and no file has gone), the next
    computation for the same second ends at a strictly larger suffix, hence
    at a different name. *)
Theorem collision_suffix_first_unused (nm : namer) (st : State) :
  exists n,
    name_of nm st = candidate nm n /\
    isFileExist (name_of nm st) st = false /\
    (forall j, (j < n)%N -> isFileExist (candidate nm j) st = true) /\
    forall st',
      files_kept st st' ->
      isFileExist (name_of nm st) st' = true ->
      exists n',
        name_of nm st' = candidate nm n' /\
        isFileExist (name_of nm st') st' = false /\
        (n < n')%N /\
        name_of nm st' <> name_of nm st.
Proof.
  destruct (name_first_free nm st) as (n & Hname & Hfree & Hbelow).
  exists n. rewrite Hname. do 3 (split; [done |]).
  intros st' Hkept Hnow.
  destruct (name_first_free nm st') as (n' & Hname' & Hfree' & Hbelow').
  exists n'. rewrite Hname'. do 2 (split; [done |]).
  assert (n < n')%N as Hlt.
  { destruct (N.lt_ge_cases n n') as [|Hge]; [done |].
    destruct (decide (n' = n)) as [-> | Hne]; [congruence |].
    assert (isFileExist (candidate nm n') st' = true); [| congruence].
    apply Hkept, Hbelow. lia. }
  split; [done |].
  intros Heq. apply candidate_inj in Heq. lia.
Qed.

Lemma collision_suffix_first_unused_witness :
  exists n', name_of (LogName f_sample) st_one_log = candidate (LogName f_sample) n' /\ (0 < n')%N.
Proof.
  destruct (collision_suffix_first_unused (LogName f_sample) st_boot)
    as (n & Hn & _ & _ & Hnext).
  destruct (Hnext st_one_log) as (n' & Hn' & _ & Hlt & _).
  - unfold st_one_log. rewrite newlogfile_state.
    eapply files_kept_trans; [apply files_kept_MkdirAll | apply files_kept_OpenFile].
  - vm_compute. reflexivity.
  - exists n'. split; [done | lia].
Defined.

Example newlogfile_first : name_of (LogName f_sample) st_boot = "./log/2015-05-16//login.10_22_33.log".
Proof. vm_compute. reflexivity. Qed.

Example newlogfile_second : name_of (LogName f_sample) st_one_log = "./log/2015-05-16//login.10_22_33_1.log".
Proof. vm_compute. reflexivity. Qed.

Example newDumpFile_first : name_of (DumpName t_sample) st_boot = "./exceptions/2015-05-16/exceptions.10_22_33.log".
Proof. vm_compute. reflexivity. Qed.

(** ** The path of the current log file *)

(** Whatever the handle and the disk, the name [newlogfile] returns has
    two separators between the date directory and the file name. *)
Lemma newlogfile_path_shape (f : LOG_FILE) (st : State) :
  exists suffix,
    fst (newlogfile f st) =
      log_dir f +:+ "/" +:+
      d0 4 (Year (timestamp f)) +:+ "-" +:+ d0 2 (Month (timestamp f)) +:+ "-" +:+
      d0 2 (Day (timestamp f)) +:+ "//" +:+
      log_filename f +:+ "." +:+ d0 2 (Hour (timestamp f)) +:+ "_" +:+
      d0 2 (Minute (timestamp f)) +:+ "_" +:+ d0 2 (Second (timestamp f)) +:+
      suffix +:+ ".log".
Proof.
  destruct (name_first_free (LogName f) st) as (n & Hname & _).
  simpl in Hname. rewrite Hname. unfold candidate, name_base, name_dir.
  destruct (n =? 0)%N.
  - exists "". by rewrite !append_assoc.
  - exists ("_" +:+ d (Z.of_N n)). by rewrite !append_assoc.
Qed.

Lemma rename_path (f : LOG_FILE) (now : Time) (st : State) :
  exists f',
    logFile (rename f now st) = Some f' /\
    timestamp f' = now /\
    logfilepath f' =
      fst (newlogfile (mkLOG_FILE (log_dir f) (log_filename f) now (logfilepath f)
                         (logfile f) (logger f)) st).
Proof.
  unfold rename.
  destruct (newlogfile _ st) as [fn st1] eqn:Hn. simpl.
  destruct (OS.OpenFile fn _) as [file st3]. simpl. eauto.
Qed.

(** C8. [Initialize("./log/", "login")] at 2015-05-16 10:22:33 on an
    empty disk leaves the handle with the path
    [./log/2015-05-16//login.10_22_33.log]: date and time come from the
    recorded timestamp, but the date directory and the file name are two
    separators apart, so the path is not the one the layout
    [{logDirectory}/{YYYY-MM-DD}/{baseName}.{HH}_{MM}_{SS}.log] gives. *)
Theorem Initialize_path_double_separator :
  (logfilepath <$> logFile st_running) = Some "./log/2015-05-16//login.10_22_33.log" /\
  (timestamp <$> logFile st_running) = Some t_sample /\
  (logfilepath <$> logFile st_running) <>
    Some ("./log" +:+ "/" +:+ "2015-05-16" +:+ "/" +:+ "login" +:+ "." +:+ "10" +:+ "_" +:+
          "22" +:+ "_" +:+ "33" +:+ ".log").
Proof. vm_compute. repeat split; congruence. Qed.

(** ** Rotation check *)

Lemma MkdirAll_idempotent (dir : string) (st : State) :
  OS.MkdirAll dir (OS.MkdirAll dir st) = OS.MkdirAll dir st.
Proof.
  unfold OS.MkdirAll at 2 3.
  destruct (fs st !! dir) eqn:Hd.
  - unfold OS.MkdirAll. by rewrite Hd.
  - unfold OS.MkdirAll. simpl. by rewrite lookup_insert_eq.
Qed.

Lemma MkdirAll_directory (dir : string) (st : State) :
  isFileExist dir st = false ->
  exists n, OS.Stat dir (OS.MkdirAll dir st) = Some n /\ IsDir n = true.
Proof.
  unfold isFileExist, OS.Stat, OS.MkdirAll.
  destruct (fs st !! dir) as [n |] eqn:Hd.
  - rewrite Hd. destruct (IsDir n) eqn:Hn; [eauto | done].
  - simpl. rewrite lookup_insert_eq. eauto.
Qed.

(** C4. [isMustRename] answers true exactly when the day of the year has
    changed since the handle's timestamp, or [os.Stat] on the current path
    reports at least 512*1024*1024 bytes, or the current path is no longer
    an existing file.  When it answers false it has called
    [os.MkdirAll] on the log directory and nothing else: calling it again
    changes nothing, and the log directory is a directory afterwards
    (unless a regular file sits at that very path). *)
Theorem isMustRename_iff (f : LOG_FILE) (now : Time) (st : State) :
  (fst (isMustRename f now st) = true <->
     YearDay now <> YearDay (timestamp f) \/
     (exists fi, OS.Stat (logfilepath f) st = Some fi /\ (512 * 1024 * 1024 <= Size fi)%Z) \/
     isFileExist (logfilepath f) st = false) /\
  (fst (isMustRename f now st) = false ->
     snd (isMustRename f now st) = OS.MkdirAll (log_dir f) st /\
     OS.MkdirAll (log_dir f) (snd (isMustRename f now st)) = snd (isMustRename f now st) /\
     (isFileExist (log_dir f) st = false ->
      exists n, OS.Stat (log_dir f) (snd (isMustRename f now st)) = Some n /\ IsDir n = true)).
Proof.
  unfold isMustRename, checkFileDate, checkFileSize, checkFileExist, logMaxSize.
  destruct (Z.eqb_spec (YearDay now) (YearDay (timestamp f))) as [Hday | Hday]; simpl.
  2: { split; [| done]. split; [intros _; by left | done]. }
  destruct (OS.Stat (logfilepath f) st) as [fi |] eqn:Hstat.
  - destruct (Z.geb_spec (Size fi) (512 * 1024 * 1024)) as [Hsz | Hsz].
    { split; [| done]. split; [intros _ | done]. right; left. exists fi. split; [done | lia]. }
    destruct (isFileExist (logfilepath f) st) eqn:Hex; simpl.
    + split.
      * split; [done |]. intros [H | [(fi' & Hfi & Hsz') | H]]; [done | | done].
        injection Hfi as <-. lia.
      * intros _. split; [done |]. split; [apply MkdirAll_idempotent |].
        apply MkdirAll_directory.
    + split; [| done]. split; [intros _ | done]. by right; right.
  - assert (isFileExist (logfilepath f) st = false) as Hex.
    { unfold isFileExist. by rewrite Hstat. }
    rewrite Hex. simpl. split; [| done]. split; [intros _ | done]. by right; right.
Qed.

Lemma isMustRename_iff_witness :
  OS.MkdirAll (log_dir f_running) (snd (isMustRename f_running t_sample st_running))
  = snd (isMustRename f_running t_sample st_running).
Proof.
  destruct (isMustRename_iff f_running t_sample st_running) as [_ H].
  destruct H as (_ & H & _); [vm_compute; reflexivity | exact H].
Defined.

(** ** Initialize *)

(** C10. [Initialize] with an empty directory string panics with an index
    out of range (index -1) and has touched nothing: neither the package
    variables nor the disk. *)
Theorem Initialize_empty_dir_panics (fileName : string) (now : Time) (st : State) :
  Initialize "" fileName now st = (Panicking (IndexOutOfRange (-1)), st).
Proof. reflexivity. Qed.

Example Initialize_strips_one_separator :
  (log_dir <$> logFile st_running) = Some "./log".
Proof. vm_compute. reflexivity. Qed.

(** A successful [Initialize] leaves the handle with its logger, and
    [rename] keeps it so. *)
Lemma Initialize_handle_ok (fileDir fileName : string) (now : Time) (st : State) :
  fst (Initialize fileDir fileName now st) = Returned tt ->
  handle_ok (snd (Initialize fileDir fileName now st)) = true.
Proof.
  unfold Initialize. destruct (last_byte fileDir); [| done].
  destruct (newlogfile _ _) as [fn st2].
  destruct (OS.OpenFile fn st2) as [[fd |] st3]; done.
Qed.

Lemma rename_handle_ok (f : LOG_FILE) (now : Time) (st : State) :
  handle_ok (rename f now st) = true.
Proof.
  unfold rename. destruct (newlogfile _ st) as [fn st1].
  destruct (OS.OpenFile fn _) as [file st3]. done.
Qed.

(** ** The emission entry points *)

Section EmissionFacts.

Variable Sprintf : string -> list value -> string.

Lemma call_plain_unfold (e : Env) (sv : severity) (sh : shape) (st : State) :
  call_plain Sprintf e sv sh st =
    if (logLevel st <=? level_of sv)%Z
    then emit e (level_of sv) (record_text Sprintf sv sh) st
    else (Returned tt, st).
Proof.
  destruct sv, sh; cbn [call_plain level_of];
    unfold Debug, Info, Warn, Error, Fatal, Debugf, Infof, Warnf, Errorf, Fatalf,
      Debugln, Infoln, Warnln, Errorln, Fatalln, emit, with_defer;
    match goal with |- context [(?a <=? ?b)%Z] => destruct (a <=? b)%Z end;
    reflexivity.
Qed.

Lemma call_verbose_unfold (e : Env) (v : Verbose) (sv : severity) (sh : shape) (st : State) :
  call_verbose Sprintf e v sv sh st =
    if v then emit e (level_of sv) (record_text Sprintf sv sh) st
    else (Returned tt, st).
Proof. destruct sv, sh, v; reflexivity. Qed.

End EmissionFacts.

Lemma Write_frame (file : option nat) (bytes : string) (st : State) :
  let st1 := snd (OS.Write file bytes st) in
  logLevel st1 = logLevel st /\ logConsole st1 = logConsole st /\
  logConsolePrefix st1 = logConsolePrefix st /\ logFile st1 = logFile st /\
  fds st1 = fds st /\ stderr st1 = stderr st /\ stdout st1 = stdout st.
Proof.
  unfold OS.Write. destruct file as [fd |]; [| done].
  destruct (fds st !! fd) as [path |]; [| done].
  destruct (fs st !! path) as [n |]; [| done].
  destruct (IsDir n); done.
Qed.

(** A write through an open descriptor on a regular file appends. *)
Lemma Write_appends (fd : nat) (path bytes : string) (n : node) (st : State) :
  fds st !! fd = Some path -> fs st !! path = Some n -> IsDir n = false ->
  fs (snd (OS.Write (Some fd) bytes st)) !! path =
    Some (mkNode false (Size n + Z.of_nat (String.length bytes)) (data n ++ [bytes])).
Proof.
  intros Hfd Hp Hn. unfold OS.Write. rewrite Hfd, Hp, Hn. simpl.
  by rewrite lookup_insert_eq.
Qed.

(** A write through a nil file or a closed descriptor changes nothing. *)
Lemma Write_nowhere (file : option nat) (bytes : string) (st : State) :
  (forall fd, file = Some fd -> fds st !! fd = None) ->
  snd (OS.Write file bytes st) = st.
Proof.
  intros H. unfold OS.Write. destruct file as [fd |]; [| done].
  by rewrite (H fd eq_refl).
Qed.

(** What [emit] leaves behind, case by case. *)
Lemma emit_no_handle (e : Env) (ll : LEVEL) (c : string) (st : State) :
  logFile st = None ->
  emit e ll c st = (Returned tt, snd (console e ll c st)).
Proof. intros H. unfold emit, with_defer. by rewrite H. Qed.

Lemma emit_logger (e : Env) (ll : LEVEL) (c : string) (st : State) (f : LOG_FILE) (lg : Logger) :
  logFile st = Some f -> logger f = Some lg ->
  emit e ll c st =
    (Returned tt, snd (console e ll c (snd (OS.Write (lg_out lg) (file_record e lg c) st)))).
Proof. intros H1 H2. unfold emit, with_defer. by rewrite H1, H2. Qed.

Lemma emit_nil_logger (e : Env) (ll : LEVEL) (c : string) (st : State) (f : LOG_FILE) :
  logFile st = Some f -> logger f = None ->
  emit e ll c st =
    (Returned tt, log_Println ("err " +:+ panic_fmt_v NilDereference) st).
Proof. intros H1 H2. unfold emit, with_defer. by rewrite H1, H2. Qed.

Lemma emit_returns (e : Env) (ll : LEVEL) (c : string) (st : State) :
  fst (emit e ll c st) = Returned tt.
Proof.
  destruct (logFile st) as [f |] eqn:Hf.
  - destruct (logger f) as [lg |] eqn:Hl.
    + by rewrite (emit_logger e ll c st f lg).
    + by rewrite (emit_nil_logger e ll c st f).
  - by rewrite emit_no_handle.
Qed.

Lemma emit_stderr (e : Env) (ll : LEVEL) (c : string) (st : State) :
  handle_ok st = true ->
  stderr (snd (emit e ll c st)) =
    if logConsole st then (stderr st ++ [console_line e (logConsolePrefix st) ll c])%list
    else stderr st.
Proof.
  unfold handle_ok. intros Hok.
  destruct (logFile st) as [f |] eqn:Hf.
  - destruct (logger f) as [lg |] eqn:Hl; [| done].
    rewrite (emit_logger e ll c st f lg Hf Hl). simpl.
    destruct (Write_frame (lg_out lg) (file_record e lg c) st)
      as (_ & -> & -> & _ & _ & Herr & _).
    destruct (logConsole st); simpl; by rewrite Herr.
  - rewrite emit_no_handle by done. simpl. by destruct (logConsole st).
Qed.

Lemma emit_fs (e : Env) (ll : LEVEL) (c : string) (st : State) :
  fs (snd (emit e ll c st)) =
    match logFile st with
    | Some f =>
        match logger f with
        | Some lg => fs (snd (OS.Write (lg_out lg) (file_record e lg c) st))
        | None => fs st
        end
    | None => fs st
    end.
Proof.
  destruct (logFile st) as [f |] eqn:Hf.
  - destruct (logger f) as [lg |] eqn:Hl.
    + rewrite (emit_logger e ll c st f lg Hf Hl). simpl.
      by destruct (logConsole _).
    + by rewrite (emit_nil_logger e ll c st f).
  - rewrite emit_no_handle by done. simpl. by destruct (logConsole st).
Qed.

Lemma app_singleton_ne {A} (l : list A) (x : A) : (l ++ [x])%list <> l.
Proof.
  intros H. apply (f_equal (@List.length A)) in H.
  rewrite length_app in H. simpl in H. lia.
Qed.


Lemma level_of_range (sv : severity) : (1 <= level_of sv <= 5)%Z.
Proof. destruct sv; unfold level_of, DEBUG, INFO, WARN, ERROR, FATAL; lia. Qed.

Section EmissionProperties.

Variable Sprintf : string -> list value -> string.

(** C1. Each of the fifteen package-level functions, at its severity S and
    under threshold T = [logLevel]: when T <= S fails the call changes
    nothing at all; when it holds the record goes to the sinks: standard
    error gains the coloured console line (console enabled, handle in
    order) and the handle's file gains the record (descriptor open on a
    regular file).  With the console attached, output appears iff T <= S.
    Threshold ALL lets every severity through, threshold FATAL only
    FATAL. *)
Theorem plain_emits_iff_threshold (e : Env) (sv : severity) (sh : shape) (st : State) :
  let st' := snd (call_plain Sprintf e sv sh st) in
  let text := record_text Sprintf sv sh in
  (~ (logLevel st <= level_of sv)%Z -> st' = st) /\
  ((logLevel st <= level_of sv)%Z ->
     (handle_ok st = true -> logConsole st = true ->
      stderr st' =
        (stderr st ++ [console_line e (logConsolePrefix st) (level_of sv) text])%list) /\
     (forall f lg fd path n,
        logFile st = Some f -> logger f = Some lg -> lg_out lg = Some fd ->
        fds st !! fd = Some path -> fs st !! path = Some n -> IsDir n = false ->
        fs st' !! path =
          Some (mkNode false
                  (Size n + Z.of_nat (String.length (file_record e lg text)))
                  (data n ++ [file_record e lg text])))) /\
  (handle_ok st = true -> logConsole st = true ->
     (stderr st' <> stderr st <-> (logLevel st <= level_of sv)%Z)) /\
  (logLevel st = ALL -> (logLevel st <= level_of sv)%Z) /\
  (logLevel st = FATAL -> ((logLevel st <= level_of sv)%Z <-> sv = SevFatal)).
Proof.
  cbv zeta. rewrite call_plain_unfold.
  destruct (Z.leb_spec (logLevel st) (level_of sv)) as [Hle | Hgt].
  - split; [intros H; lia |]. split.
    + intros _. split.
      * intros Hok Hcon. rewrite emit_stderr by done. by rewrite Hcon.
      * intros f lg fd path n Hf Hl Hout Hfd Hp Hn.
        rewrite emit_fs, Hf, Hl, Hout. by apply Write_appends.
    + split.
      * intros Hok Hcon. rewrite emit_stderr by done. rewrite Hcon.
        split; [done |]. intros _. apply app_singleton_ne.
      * split; [done |]. intros HT. split; [| done].
        intros _. rewrite HT in Hle. unfold FATAL in Hle.
        pose proof (level_of_range sv). destruct sv; unfold level_of in *; try done;
          unfold DEBUG, INFO, WARN, ERROR in *; lia.
  - simpl. split; [done |]. split; [intros H; lia |]. split.
    + intros _ _. split; [done | intros H; lia].
    + split.
      * intros HT. rewrite HT. pose proof (level_of_range sv). unfold ALL. lia.
      * intros HT. split; [intros H; lia |]. intros ->. rewrite HT. unfold level_of. lia.
Qed.

Lemma call_plain_returns (e : Env) (sv : severity) (sh : shape) (st : State) :
  fst (call_plain Sprintf e sv sh st) = Returned tt.
Proof.
  rewrite call_plain_unfold.
  destruct (logLevel st <=? level_of sv)%Z; [apply emit_returns | done].
Qed.

Lemma call_verbose_returns (e : Env) (v : Verbose) (sv : severity) (sh : shape) (st : State) :
  fst (call_verbose Sprintf e v sv sh st) = Returned tt.
Proof.
  rewrite call_verbose_unfold. destruct v; [apply emit_returns | done].
Qed.


(** The gate [V] computes, and what it means for the methods. *)
Lemma V_true_iff (level : LEVEL) (st : State) :
  V level st = true <-> (level <= logLevel st)%Z.
Proof.
  unfold V. destruct (Z.geb_spec (logLevel st) level); split; (done || lia).
Qed.

Lemma verbose_emits_iff_gate (e : Env) (level : LEVEL) (sv : severity) (sh : shape) (st : State) :
  handle_ok st = true -> logConsole st = true ->
  (stderr (snd (call_verbose Sprintf e (V level st) sv sh st)) <> stderr st <->
   (level <= logLevel st)%Z).
Proof.
  intros Hok Hcon. rewrite <- V_true_iff, call_verbose_unfold.
  destruct (V level st).
  - rewrite emit_stderr by done. rewrite Hcon. split; [done |]. intros _. apply app_singleton_ne.
  - simpl. split; [done | done].
Qed.

End EmissionProperties.

Lemma plain_emits_iff_threshold_witness :
  stderr (snd (call_plain (fun fm _ => fm) e_sample SevDebug (Plain boom) st_running))
  <> stderr st_running.
Proof.
  destruct (plain_emits_iff_threshold (fun fm _ => fm) e_sample SevDebug (Plain boom) st_running)
    as (_ & _ & H & _).
  apply H; [reflexivity | reflexivity | vm_compute; congruence].
Defined.


(** What one call leaves on the console and in the file. *)
Example Warnln_console :
  stderr (snd (Warnln e_sample [boom; boom] st_running)) =
    [ESC +:+ "[0;49;33m==>[2015/05/16_10:22:33.123456] #main.go:42 WARN boom boom" +:+ ESC +:+ "[0m"].
Proof. vm_compute. reflexivity. Qed.

Example Warnln_file :
  data <$> (fs (snd (Warnln e_sample [boom; boom] st_running))
              !! "./log/2015-05-16//login.10_22_33.log") =
    Some ["2015/05/16 10:22:33.123456 main.go:42: WARN boom boom" +:+ LF].
Proof. vm_compute. reflexivity. Qed.

(** The panic of a handle without logger is recovered, and reported. *)
Example Debug_recovers_nil_logger :
  handle_ok st_broken = false /\
  fst (Debug e_sample boom st_broken) = Returned tt /\
  stderr (snd (Debug e_sample boom st_broken)) =
    ["err runtime error: invalid memory address or nil pointer dereference"].
Proof. vm_compute. auto. Qed.

(** C2. The gate of [V] is the comparison of the package-level functions
    the wrong way round.  Under threshold ERROR, [V(DEBUG)] is true and its
    [Debug] method prints, while the package-level [Debug] drops the
    record.  Under the initial threshold ALL, [V(DEBUG)] is false and its
    [Debug] method does nothing, while the package-level [Debug] prints. *)
Theorem V_gate_reversed :
  let quiet := set_logLevel ERROR st_boot in
  (V DEBUG quiet = true /\
   stderr (snd (Verbose_Debug e_sample (V DEBUG quiet) boom quiet)) <> [] /\
   snd (Debug e_sample boom quiet) = quiet) /\
  (V DEBUG st_boot = false /\
   snd (Verbose_Debug e_sample (V DEBUG st_boot) boom st_boot) = st_boot /\
   stderr (snd (Debug e_sample boom st_boot)) <> []).
Proof. vm_compute. repeat split; congruence. Qed.

(** ** Rotation when the new file cannot be opened *)

Lemma OpenFile_None (p : string) (st : State) :
  fst (OS.OpenFile p st) = None -> snd (OS.OpenFile p st) = st.
Proof.
  unfold OS.OpenFile. destruct (denied st p); [done |].
  destruct (fs st !! p) as [n |]; [| done]. destruct (IsDir n); done.
Qed.

Lemma OpenFile_Some (p : string) (st : State) (fd : nat) :
  fst (OS.OpenFile p st) = Some fd ->
  let st' := snd (OS.OpenFile p st) in
  fds st' !! fd = Some p /\ stdout st' = stdout st /\
  exists n, fs st' !! p = Some n /\ IsDir n = false.
Proof.
  unfold OS.OpenFile. destruct (denied st p); [done |].
  destruct (fs st !! p) as [n |] eqn:Hp.
  - destruct (IsDir n) eqn:Hn; [done |]. simpl. intros [= <-].
    rewrite lookup_insert_eq. eauto.
  - simpl. intros [= <-]. rewrite !lookup_insert_eq. split; [done |]. split; [done |].
    by exists empty_file.
Qed.

Lemma rename_unfold (f : LOG_FILE) (now : Time) (st : State) :
  rename f now st =
    let '(fn, st2) := rename_prepare f now st in
    let '(file, st3) := OS.OpenFile fn st2 in
    set_logFile (Some (mkLOG_FILE (log_dir f) (log_filename f) now fn file
                         (Some (mkLogger file logFlags)))) st3.
Proof.
  unfold rename, rename_prepare. by destruct (newlogfile _ st) as [fn st1].
Qed.

Lemma isFileExist_Close (p : string) (fd : nat) (st : State) :
  isFileExist p (OS.Close fd st) = isFileExist p st.
Proof. reflexivity. Qed.

Lemma rename_prepare_name_free (f : LOG_FILE) (now : Time) (st : State) :
  isFileExist (fst (rename_prepare f now st)) (snd (rename_prepare f now st)) = false.
Proof.
  unfold rename_prepare.
  set (f1 := mkLOG_FILE _ _ _ _ _ _).
  destruct (name_first_free (LogName f1) st) as (n & Hname & Hfree & _).
  pose proof (newlogfile_state f1 st) as Hst.
  simpl in Hname. destruct (newlogfile f1 st) as [fn st1]. simpl in *. subst fn st1.
  destruct (logfile f); [rewrite isFileExist_Close |]; by rewrite isFileExist_MkdirAll.
Qed.

Lemma isMustRename_missing_file (f : LOG_FILE) (now : Time) (st : State) :
  isFileExist (logfilepath f) st = false -> fst (isMustRename f now st) = true.
Proof.
  intros H. unfold isMustRename, checkFileExist. rewrite H. simpl.
  destruct (checkFileDate f now); [done |]. by destruct (checkFileSize f st).
Qed.

(** C5, as the code has it.  When the open of the new file fails during
    [rename], the previous file has already been closed and the handle is
    left with a nil file and a logger over it; path and timestamp have
    moved on to the new name.  Every later call of an entry point,
    package-level function or [Verbose] method, returns normally and
    leaves the disk as it is: no record reaches any file.  The
    next rotation check answers true (the new path is not an existing file),
    so the open is tried again. *)
Theorem rename_open_failure (f : LOG_FILE) (now : Time) (st : State) :
  fst (OS.OpenFile (fst (rename_prepare f now st)) (snd (rename_prepare f now st))) = None ->
  exists f',
    logFile (rename f now st) = Some f' /\
    logfile f' = None /\
    logger f' = Some (mkLogger None logFlags) /\
    logfilepath f' = fst (rename_prepare f now st) /\
    timestamp f' = now /\
    (forall fd, logfile f = Some fd -> fds (rename f now st) !! fd = None) /\
    (forall Sprintf e sv sh,
       fst (call_plain Sprintf e sv sh (rename f now st)) = Returned tt /\
       fs (snd (call_plain Sprintf e sv sh (rename f now st))) = fs (rename f now st)) /\
    (forall Sprintf e v sv sh,
       fst (call_verbose Sprintf e v sv sh (rename f now st)) = Returned tt /\
       fs (snd (call_verbose Sprintf e v sv sh (rename f now st))) = fs (rename f now st)) /\
    (forall now', fst (isMustRename f' now' (rename f now st)) = true).
Proof.
  intros Hopen. rewrite rename_unfold.
  pose proof (rename_prepare_name_free f now st) as Hfree.
  assert (forall fd, logfile f = Some fd -> fds (snd (rename_prepare f now st)) !! fd = None)
    as Hclosed.
  { intros fd Hfd. unfold rename_prepare. destruct (newlogfile _ st) as [fn st1].
    simpl. rewrite Hfd. simpl. apply lookup_delete_eq. }
  destruct (rename_prepare f now st) as [fn st2]. simpl in *.
  pose proof (OpenFile_None fn st2 Hopen) as Hst.
  destruct (OS.OpenFile fn st2) as [file st3]. simpl in *. subst file st3.
  eexists. split; [reflexivity |]. simpl.
  do 4 (split; [done |]). split; [exact Hclosed |]. split; [| split].
  - intros Sprintf e sv sh. split; [apply call_plain_returns |].
    rewrite call_plain_unfold.
    destruct (logLevel _ <=? level_of sv)%Z; [| done].
    rewrite emit_fs. done.
  - intros Sprintf e v sv sh. split; [apply call_verbose_returns |].
    rewrite call_verbose_unfold.
    destruct v; [| done].
    rewrite emit_fs. done.
  - intros now'. apply isMustRename_missing_file. exact Hfree.
Qed.

Lemma rename_open_failure_witness :
  exists f', logFile (rename f_running t_later st_refusing) = Some f' /\ logfile f' = None.
Proof.
  destruct (rename_open_failure f_running t_later st_refusing) as (f' & H1 & H2 & _).
  - vm_compute. reflexivity.
  - exists f'. split; [exact H1 | exact H2].
Defined.

(** The handle of [st_refusing] holds descriptor 0, open on the file
    created at 10:22:33.  After the failed rotation the descriptor is
    closed and the handle holds no file. *)
Lemma rename_open_failure_loses_handle :
  ~ keeps_previous_handle st_refusing (rename f_running t_later st_refusing).
Proof.
  intros (f & f' & fd & _ & Hf' & _ & Hfd & _).
  assert ((logfile <$> logFile (rename f_running t_later st_refusing)) = Some None) as E
    by (vm_compute; reflexivity).
  rewrite Hf' in E. simpl in E. congruence.
Qed.

Example rename_open_failure_drops_records :
  let st' := rename f_running t_later st_refusing in
  (logfile <$> logFile st_refusing) = Some (Some 0) /\
  fds st_refusing !! 0 = Some "./log/2015-05-16//login.10_22_33.log" /\
  fds st' !! 0 = None /\
  (logfilepath <$> logFile st') = Some "./log/2015-05-17//login.00_00_07.log" /\
  fs (snd (Error e_sample boom st')) = fs st' /\
  data <$> (fs (snd (Error e_sample boom st')) !! "./log/2015-05-16//login.10_22_33.log")
    = Some [].
Proof. vm_compute. repeat split; reflexivity. Qed.

(** When the open succeeds, rotation moves the handle to the new file. *)
Example rename_success :
  let st' := rename f_running t_later st_running in
  (logfile <$> logFile st') = Some (Some 1) /\
  fds st' !! 0 = None /\
  fds st' !! 1 = Some "./log/2015-05-17//login.00_00_07.log" /\
  data <$> (fs (snd (Error e_sample boom st')) !! "./log/2015-05-17//login.00_00_07.log")
    = Some ["2015/05/16 10:22:33.123456 main.go:42: ERROR boom" +:+ LF].
Proof. vm_compute. repeat split; reflexivity. Qed.

(** One tick of the monitor never panics, whether or not it rotates. *)
Lemma fileCheck_returns (now_check now_rename : Time) (st : State) :
  fst (fileCheck now_check now_rename st) = Returned tt.
Proof.
  unfold fileCheck, with_defer.
  destruct (logFile st) as [f |]; [| done].
  destruct (isMustRename f now_check st) as [[|] st1]; done.
Qed.

(** A failed rotation is retried at the next tick, and then succeeds if
    the system lets the file be opened. *)
Example fileCheck_retries :
  let st1 := snd (fileCheck t_later t_later st_refusing) in
  let st2 := snd (fileCheck t_later t_later (set_denied (fun _ => false) st1)) in
  (logfile <$> logFile st1) = Some None /\
  (logfile <$> logFile st2) = Some (Some 1) /\
  fds st2 !! 1 = Some "./log/2015-05-17//login.00_00_07.log".
Proof. vm_compute. repeat split; reflexivity. Qed.

(** ** Crash capture *)

Lemma ends_with_LF_append (s : string) : ends_with_LF (s +:+ LF) = true.
Proof.
  induction s as [| c s IH]; [done |].
  rewrite append_cons. simpl. rewrite IH.
  destruct (s +:+ LF) eqn:E; [| done].
  destruct s; discriminate E.
Qed.

Lemma log_record_no_flags (t : Time) (file : string) (line : Z) (s : string) :
  log_record logDumpExceptionFlag t file line (s +:+ LF) = s +:+ LF.
Proof.
  unfold log_record. rewrite ends_with_LF_append.
  change (formatHeader logDumpExceptionFlag t file line) with "".
  by rewrite append_nil_r.
Qed.



Lemma CatchException_opened (now : Time) (stack : string) (err : panic_value)
    (st st1 st2 : State) (fn : string) (fd : nat) :
  newDumpFile now st = (fn, st1) ->
  OS.OpenFile fn st1 = (Some fd, st2) ->
  CatchException now stack (Some err) st =
    (None, OS.Close fd (fmt_Println (dump_block err stack)
                          (snd (OS.Write (Some fd) (dump_block err stack +:+ LF) st2)))).
Proof.
  intros H1 H2. unfold CatchException. rewrite H1, H2.
  cbn [lg_out lg_flags]. by rewrite log_record_no_flags.
Qed.

Lemma CatchException_refused (now : Time) (stack : string) (err : panic_value) (st : State) :
  fst (OS.OpenFile (fst (newDumpFile now st)) (snd (newDumpFile now st))) = None ->
  CatchException now stack (Some err) st = (None, OS.MkdirAll (name_dir (DumpName now)) st).
Proof.
  intros Hopen. unfold CatchException.
  pose proof (newDumpFile_state now st) as Hst.
  destruct (newDumpFile now st) as [fn st1]. cbn [fst snd] in *. subst st1.
  pose proof (OpenFile_None fn _ Hopen) as Hnone.
  destruct (OS.OpenFile fn _) as [file st2]. cbn [fst snd] in *. by subst.
Qed.




Example CatchException_boom :
  let r := CatchException t_sample "goroutine 1 [running]" (Some (UserValue boom)) st_boot in
  data <$> (fs (snd r) !! "./exceptions/2015-05-16/exceptions.10_22_33.log") =
    Some [LF +:+ copies 79 "=" +:+ LF +:+ "EXCEPTION: " +:+ QUOTE +:+ "boom" +:+ QUOTE
          +:+ copies 19 TAB +:+ LF +:+ copies 79 "=" +:+ copies 2 TAB +:+ LF
          +:+ "goroutine 1 [running]" +:+ LF] /\
  fds (snd r) = ∅.
Proof. vm_compute. split; reflexivity. Qed.

(** * Further properties of the package *)

(** ** Base name of the caller's file *)

Lemma after_last_slash_spec (r : string) :
  match after_last_slash r with
  | Some t => has_slash t = false /\ exists pre, r = pre +:+ "/" +:+ t
  | None => has_slash r = false
  end.
Proof.
  induction r as [| c r IH]; [done |].
  simpl. destruct (after_last_slash r) as [t |].
  - destruct IH as (Ht & pre & Hpre).
    split; [done |]. exists (String c pre). by rewrite append_cons, <- Hpre.
  - rewrite IH, orb_false_r. destruct (Ascii.eqb_spec c SLASH) as [-> | Hc].
    + split; [done |]. by exists "".
    + done.
Qed.

Lemma has_slash_app (s t : string) : has_slash (s +:+ t) = has_slash s || has_slash t.
Proof.
  induction s as [| c s IH]; [done |].
  rewrite append_cons. simpl. by rewrite IH, orb_assoc.
Qed.

(** X1. The loop that shortens the caller's file name cuts the name
    after its last separator, not counting a separator at index 0: when a
    separator follows the first byte, the name is some non-empty front, a
    separator, and the result, which has no separator in it; when none
    does, the name comes back whole, so a separator at index 0 alone is
    kept. *)
Theorem short_file_base_name (c : ascii) (r : string) :
  (has_slash r = true ->
     has_slash (short_file (String c r)) = false /\
     exists front, String c r = String c front +:+ "/" +:+ short_file (String c r)) /\
  (has_slash r = false -> short_file (String c r) = String c r) /\
  short_file "" = "".
Proof.
  simpl. pose proof (after_last_slash_spec r) as H.
  destruct (after_last_slash r) as [t |]; simpl.
  - destruct H as (Ht & pre & ->). split; [| split; [| done]].
    + intros _. split; [done |]. by exists pre.
    + rewrite has_slash_app. simpl. rewrite orb_true_r. discriminate.
  - split; [| done]. intros Hn. congruence.
Qed.

Lemma short_file_base_name_witness :
  has_slash (short_file "/src/app/main.go") = false /\ short_file "/main.go" = "/main.go".
Proof.
  split.
  - destruct (proj1 (short_file_base_name "/" "src/app/main.go") eq_refl)
      as (Hno & front & Hfront).
    exact Hno.
  - apply (proj1 (proj2 (short_file_base_name "/" "main.go"))). reflexivity.
Defined.

(** ** The text of a record *)

Lemma append_nil_l (s : string) : "" +:+ s = s.
Proof. reflexivity. Qed.

Lemma TrimRight_LF_cons (c : ascii) (r : string) :
  Ascii.eqb c (ascii_of_nat 10) = false ->
  TrimRight_LF (String c r) = String c (TrimRight_LF r).
Proof. intros H. simpl. rewrite H. by destruct (TrimRight_LF r). Qed.

Lemma TrimRight_LF_spec (s : string) :
  ends_with_LF (TrimRight_LF s) = false /\
  exists k, s = TrimRight_LF s +:+ copies k LF.
Proof.
  induction s as [| c r (Hend & k & Hk)]; [split; [done | by exists 0%nat] |].
  simpl. destruct (TrimRight_LF r) as [| c' r'] eqn:Hr.
  - destruct (Ascii.eqb_spec c (ascii_of_nat 10)) as [-> | Hc].
    + split; [done |]. exists (S k). simpl in Hk. by rewrite Hk.
    + split; [simpl; by apply Ascii.eqb_neq |]. exists k. simpl in Hk. by rewrite Hk.
  - split; [exact Hend |]. exists k. by rewrite append_cons, <- Hk.
Qed.

Lemma ends_with_LF_cons (c : ascii) (s : string) :
  s <> "" -> ends_with_LF (String c s) = ends_with_LF s.
Proof. by destruct s. Qed.

Lemma ends_with_LF_append_r (p s : string) :
  s <> "" -> ends_with_LF (p +:+ s) = ends_with_LF s.
Proof.
  intros Hs. induction p as [| c p IH]; [done |].
  rewrite append_cons, ends_with_LF_cons; [done |].
  destruct p; [done | by rewrite append_cons].
Qed.

Section RecordText.

Variable Sprintf : string -> list value -> string.

(** X2. The text of a record is the severity name, one space, and the
    message with all its trailing newlines removed (and nothing else:
    what was cut is a run of newlines).  It never ends in a newline, so the
    bytes written to the file for it end in exactly the one newline the
    logger adds. *)
Theorem record_text_trimmed (e : Env) (lg : Logger) (sv : severity) (sh : shape) :
  record_text Sprintf sv sh =
    severity_name sv +:+ " " +:+ TrimRight_LF (message Sprintf sh) /\
  (exists k, message Sprintf sh = TrimRight_LF (message Sprintf sh) +:+ copies k LF) /\
  ends_with_LF (record_text Sprintf sv sh) = false /\
  file_record e lg (record_text Sprintf sv sh) =
    formatHeader (lg_flags lg) (now_output e) (caller_file e) (caller_line e)
      +:+ record_text Sprintf sv sh +:+ LF.
Proof.
  assert (record_text Sprintf sv sh =
            severity_name sv +:+ " " +:+ TrimRight_LF (message Sprintf sh)) as Htext.
  { unfold record_text. fold (message Sprintf sh).
    destruct sv; cbn [severity_name];
      repeat (rewrite append_cons || rewrite append_nil_l);
      repeat (rewrite TrimRight_LF_cons by reflexivity); reflexivity. }
  destruct (TrimRight_LF_spec (message Sprintf sh)) as [_ Hk].
  assert (ends_with_LF (record_text Sprintf sv sh) = false) as Hend.
  { unfold record_text. apply TrimRight_LF_spec. }
  split; [exact Htext |]. split; [exact Hk |]. split; [exact Hend |].
  unfold file_record, log_record. by rewrite Hend.
Qed.

End RecordText.

Example record_text_multiline :
  record_text (fun fm _ => fm) SevInfo (Formatted ("a" +:+ LF +:+ "b" +:+ LF +:+ LF) []) =
    "INFO a" +:+ LF +:+ "b".
Proof. reflexivity. Qed.

(** ** The console line *)

Lemma contains_refl (s : string) : contains s s.
Proof. exists "", "". by rewrite append_nil_r. Qed.

Lemma contains_app_l (p t s : string) : contains t s -> contains (p +:+ t) s.
Proof.
  intros (pre & post & ->). exists (p +:+ pre), post. by rewrite append_assoc.
Qed.

Lemma contains_app_r (q t s : string) : contains t s -> contains (t +:+ q) s.
Proof.
  intros (pre & post & ->). exists pre, (post +:+ q). by rewrite !append_assoc.
Qed.

Lemma SprintColor_contains (str x : string) (s fc bc : Z) :
  contains str x -> contains (SprintColor str s fc bc) x.
Proof.
  intros H. unfold SprintColor. cbv zeta.
  do 8 apply contains_app_l. by apply contains_app_r.
Qed.

(** X3. Whatever the level, also one outside DEBUG..FATAL, the console
    line is one and the same text inside a single colour sequence with the
    default background, closed by the reset sequence: only style and colour
    depend on the level.  The text carries the record unchanged at its end,
    after the base name of the caller's file and the line number, and the
    console prefix behind [@] when there is one. *)
Theorem console_line_contents (e : Env) (prefix : string) (ll : LEVEL) (args : string) :
  (exists style colour,
     console_line e prefix ll args =
       ESC +:+ "[" +:+ d style +:+ ";49;" +:+ d colour +:+ "m"
         +:+ console_context e prefix args +:+ ESC +:+ "[0m") /\
  (exists front,
     console_context e prefix args =
       front +:+ " #" +:+ short_file (caller_file e) +:+ ":" +:+ d (caller_line e)
         +:+ " " +:+ args) /\
  contains (console_line e prefix ll args) args /\
  (prefix <> "" -> contains (console_line e prefix ll args) (" @" +:+ prefix +:+ " #")).
Proof.
  assert (exists style colour,
            console_line e prefix ll args =
              SprintColor (console_context e prefix args) style colour CLR_DEFAULT)
    as (style & colour & Hline).
  { unfold console_line. cbv zeta.
    repeat match goal with |- context [(?a =? ?b)%Z] => destruct (a =? b)%Z end; eauto. }
  assert (exists front,
            console_context e prefix args =
              front +:+ " #" +:+ short_file (caller_file e) +:+ ":" +:+ d (caller_line e)
                +:+ " " +:+ args) as Hctx.
  { unfold console_context. cbv zeta. destruct (0 <? String.length prefix)%nat.
    - exists (console_stamp (now_console e) +:+ " @" +:+ prefix).
      by rewrite !append_assoc.
    - by exists (console_stamp (now_console e)). }
  split; [exists style, colour; by rewrite Hline |]. split; [exact Hctx |]. split.
  - rewrite Hline. apply SprintColor_contains.
    destruct Hctx as [front ->]. do 6 apply contains_app_l. apply contains_refl.
  - intros Hp. rewrite Hline. apply SprintColor_contains.
    unfold console_context. cbv zeta.
    destruct prefix as [| c p]; [done |]. cbn [String.length Nat.ltb Nat.leb].
    apply contains_app_l. exists "", (short_file (caller_file e) +:+ ":" +:+
                                       d (caller_line e) +:+ " " +:+ args).
    by rewrite !append_assoc.
Qed.

Lemma console_line_contents_witness :
  contains (console_line e_sample "gate" 9%Z "WARN disk") (" @" +:+ "gate" +:+ " #").
Proof.
  apply (console_line_contents e_sample "gate" 9%Z "WARN disk"). discriminate.
Defined.

(** ** What an emission leaves alone *)

Lemma Write_frame_rest (file : option nat) (bytes : string) (st : State) :
  let st1 := snd (OS.Write file bytes st) in
  next_fd st1 = next_fd st /\ denied st1 = denied st /\
  std_flags st1 = std_flags st /\ monitors st1 = monitors st.
Proof.
  unfold OS.Write. destruct file as [fd |]; [| done].
  destruct (fds st !! fd) as [path |]; [| done].
  destruct (fs st !! path) as [n |]; [| done].
  destruct (IsDir n); done.
Qed.

(** A write changes at most the file its descriptor is open on, and that by
    appending. *)
Lemma Write_cases (file : option nat) (bytes : string) (st : State) (p : string) :
  fs (snd (OS.Write file bytes st)) !! p = fs st !! p \/
  exists fd n,
    file = Some fd /\ fds st !! fd = Some p /\ fs st !! p = Some n /\ IsDir n = false /\
    fs (snd (OS.Write file bytes st)) !! p =
      Some (mkNode false (Size n + Z.of_nat (String.length bytes)) (data n ++ [bytes])).
Proof.
  unfold OS.Write. destruct file as [fd |]; [| by left].
  destruct (fds st !! fd) as [path |] eqn:Hfd; [| by left].
  destruct (fs st !! path) as [n |] eqn:Hp; [| by left].
  destruct (IsDir n) eqn:Hn; [by left |]. simpl.
  destruct (decide (path = p)) as [<- | Hne].
  - right. exists fd, n. rewrite lookup_insert_eq. done.
  - left. by rewrite lookup_insert_ne.
Qed.

Lemma console_frame (e : Env) (ll : LEVEL) (c : string) (st : State) :
  let st1 := snd (console e ll c st) in
  same_package st st1 /\ fs st1 = fs st /\ fds st1 = fds st /\ stdout st1 = stdout st /\
  next_fd st1 = next_fd st /\ denied st1 = denied st /\
  std_flags st1 = std_flags st /\ monitors st1 = monitors st /\
  exists extra, stderr st1 = (stderr st ++ extra)%list.
Proof.
  unfold console, modify, same_package. simpl.
  destruct (logConsole st) eqn:Hc; simpl; rewrite ?Hc.
  - repeat split; eauto.
  - repeat split; try done. exists []. by rewrite app_nil_r.
Qed.

Lemma emit_frame (e : Env) (ll : LEVEL) (c : string) (st : State) :
  let st1 := snd (emit e ll c st) in
  same_package st st1 /\ fds st1 = fds st /\ stdout st1 = stdout st /\
  next_fd st1 = next_fd st /\ denied st1 = denied st /\
  std_flags st1 = std_flags st /\ monitors st1 = monitors st /\
  exists extra, stderr st1 = (stderr st ++ extra)%list.
Proof.
  cbv zeta. destruct (logFile st) as [f |] eqn:Hf.
  - destruct (logger f) as [lg |] eqn:Hl.
    + rewrite (emit_logger e ll c st f lg Hf Hl). cbn [snd].
      set (w := snd (OS.Write (lg_out lg) (file_record e lg c) st)).
      destruct (Write_frame (lg_out lg) (file_record e lg c) st)
        as (W1 & W2 & W3 & W4 & W5 & W6 & W7).
      destruct (Write_frame_rest (lg_out lg) (file_record e lg c) st)
        as (W8 & W9 & W10 & W11).
      destruct (console_frame e ll c w) as ((C1 & C2 & C3 & C4) & _ & C5 & C6 & C7 & C8 & C9 & C10 & x & C11).
      unfold same_package. fold w in W1, W2, W3, W4, W5, W6, W7, W8, W9, W10, W11.
      repeat split; try congruence. exists x. congruence.
    + rewrite (emit_nil_logger e ll c st f Hf Hl). unfold same_package. simpl.
      repeat split; eauto.
  - rewrite emit_no_handle by done.
    destruct (console_frame e ll c st) as (C1 & _ & C5 & C6 & C7 & C8 & C9 & C10 & C11).
    repeat split; try done; apply C1.
Qed.

Section EmissionFrame.

Variable Sprintf : string -> list value -> string.

(** X4. No entry point, package-level function or [Verbose] method,
    changes the threshold, the console flag, the console prefix or the
    handle (directory, base name, timestamp, path, file, logger), opens or
    closes a descriptor, prints to standard output or starts a monitor.
    Standard error only gains lines. *)
Theorem emission_keeps_state (e : Env) (v : Verbose) (sv : severity) (sh : shape) (st : State) :
  forall st',
    st' = snd (call_plain Sprintf e sv sh st) \/
    st' = snd (call_verbose Sprintf e v sv sh st) ->
    same_package st st' /\ fds st' = fds st /\ stdout st' = stdout st /\
    monitors st' = monitors st /\
    exists extra, stderr st' = (stderr st ++ extra)%list.
Proof.
  assert (same_package st st /\ fds st = fds st /\ stdout st = stdout st /\
          monitors st = monitors st /\
          exists extra, stderr st = (stderr st ++ extra)%list) as Hid.
  { unfold same_package. repeat split. exists []. by rewrite app_nil_r. }
  intros st' [-> | ->].
  - rewrite call_plain_unfold. destruct (logLevel st <=? level_of sv)%Z; [| exact Hid].
    destruct (emit_frame e (level_of sv) (record_text Sprintf sv sh) st)
      as (H1 & H2 & H3 & _ & _ & _ & H4 & H5). done.
  - rewrite call_verbose_unfold. destruct v; [| exact Hid].
    destruct (emit_frame e (level_of sv) (record_text Sprintf sv sh) st)
      as (H1 & H2 & H3 & _ & _ & _ & H4 & H5). done.
Qed.

(** X5. On disk an entry point is append-only and touches one file at
    most: every path is as it was, except that the regular file the handle's
    logger has an open descriptor on may have gained exactly the one record
    of this call at its end. *)
Theorem emission_appends_only (e : Env) (v : Verbose) (sv : severity) (sh : shape) (st : State)
    (p : string) :
  forall st',
    st' = snd (call_plain Sprintf e sv sh st) \/
    st' = snd (call_verbose Sprintf e v sv sh st) ->
    fs st' !! p = fs st !! p \/
    exists f lg fd n,
      logFile st = Some f /\ logger f = Some lg /\ lg_out lg = Some fd /\
      fds st !! fd = Some p /\ fs st !! p = Some n /\ IsDir n = false /\
      fs st' !! p =
        Some (mkNode false
                (Size n + Z.of_nat (String.length (file_record e lg (record_text Sprintf sv sh))))
                (data n ++ [file_record e lg (record_text Sprintf sv sh)])).
Proof.
  assert (forall ll c,
            fs (snd (emit e ll c st)) !! p = fs st !! p \/
            exists f lg fd n,
              logFile st = Some f /\ logger f = Some lg /\ lg_out lg = Some fd /\
              fds st !! fd = Some p /\ fs st !! p = Some n /\ IsDir n = false /\
              fs (snd (emit e ll c st)) !! p =
                Some (mkNode false (Size n + Z.of_nat (String.length (file_record e lg c)))
                        (data n ++ [file_record e lg c]))) as Hemit.
  { intros ll c. rewrite emit_fs.
    destruct (logFile st) as [f |] eqn:Hf; [| by left].
    destruct (logger f) as [lg |] eqn:Hl; [| by left].
    destruct (Write_cases (lg_out lg) (file_record e lg c) st p)
      as [H | (fd & n & H1 & H2 & H3 & H4 & H5)]; [by left |].
    right. exists f, lg, fd, n. done. }
  intros st' [-> | ->].
  - rewrite call_plain_unfold. destruct (logLevel st <=? level_of sv)%Z; [| by left].
    apply Hemit.
  - rewrite call_verbose_unfold. destruct v; [| by left]. apply Hemit.
Qed.

(** X6. A [Verbose] method on a true value does exactly what the
    package-level function of the same name does when the threshold lets
    its severity through: same result, same state afterwards. *)
Theorem verbose_true_as_plain (e : Env) (sv : severity) (sh : shape) (st : State) :
  (logLevel st <= level_of sv)%Z ->
  call_verbose Sprintf e true sv sh st = call_plain Sprintf e sv sh st.
Proof.
  intros Hle. rewrite call_verbose_unfold, call_plain_unfold.
  by destruct (Z.leb_spec (logLevel st) (level_of sv)); [| lia].
Qed.

(** X7. With a single argument the plain and the line-joining shape of
    every severity are the same call, for the package-level functions and
    for the [Verbose] methods. *)
Theorem plain_as_line_of_one (e : Env) (v : Verbose) (sv : severity) (a : value) (st : State) :
  call_plain Sprintf e sv (Plain a) st = call_plain Sprintf e sv (Line [a]) st /\
  call_verbose Sprintf e v sv (Plain a) st = call_verbose Sprintf e v sv (Line [a]) st.
Proof. destruct sv; split; reflexivity. Qed.

End EmissionFrame.

Lemma verbose_true_as_plain_witness :
  call_verbose (fun fm _ => fm) e_sample true SevFatal (Formatted "down" []) st_running =
  call_plain (fun fm _ => fm) e_sample SevFatal (Formatted "down" []) st_running.
Proof.
  apply verbose_true_as_plain. vm_compute. congruence.
Defined.

(** ** What the operating system calls leave alone *)

Lemma MkdirAll_frame (dir : string) (st : State) :
  let s1 := OS.MkdirAll dir st in
  same_package st s1 /\ fds s1 = fds st /\ next_fd s1 = next_fd st /\
  denied s1 = denied st /\ stderr s1 = stderr st /\ stdout s1 = stdout st /\
  std_flags s1 = std_flags st /\ monitors s1 = monitors st.
Proof. unfold OS.MkdirAll, same_package. by destruct (fs st !! dir). Qed.

(** [os.MkdirAll] leaves every entry that is there as it is. *)
Lemma MkdirAll_lookup (dir p : string) (st : State) :
  is_Some (fs st !! p) -> fs (OS.MkdirAll dir st) !! p = fs st !! p.
Proof.
  intros [n Hn]. unfold OS.MkdirAll. destruct (fs st !! dir) eqn:Hd; [done |].
  simpl. rewrite lookup_insert_ne; [done |]. congruence.
Qed.

Lemma OpenFile_frame (p : string) (st : State) :
  let s1 := snd (OS.OpenFile p st) in
  same_package st s1 /\ denied s1 = denied st /\ stderr s1 = stderr st /\
  stdout s1 = stdout st /\ std_flags s1 = std_flags st /\ monitors s1 = monitors st.
Proof.
  unfold OS.OpenFile, same_package. destruct (denied st p); [done |].
  destruct (fs st !! p) as [n |]; [by destruct (IsDir n) | done].
Qed.

Lemma OpenFile_lookup (p q : string) (st : State) :
  is_Some (fs st !! q) -> fs (snd (OS.OpenFile p st)) !! q = fs st !! q.
Proof.
  intros [n Hn]. unfold OS.OpenFile. destruct (denied st p); [done |].
  destruct (fs st !! p) as [m |] eqn:Hp; [by destruct (IsDir m) |].
  simpl. rewrite lookup_insert_ne; [done |]. congruence.
Qed.

Lemma OpenFile_opened (p : string) (st : State) (fd : nat) :
  fst (OS.OpenFile p st) = Some fd ->
  fd = next_fd st /\
  fds (snd (OS.OpenFile p st)) = <[fd := p]> (fds st) /\
  next_fd (snd (OS.OpenFile p st)) = S (next_fd st) /\
  isFileExist p (snd (OS.OpenFile p st)) = true.
Proof.
  unfold OS.OpenFile, isFileExist, OS.Stat. destruct (denied st p); [done |].
  destruct (fs st !! p) as [n |] eqn:Hp.
  - destruct (IsDir n) eqn:Hn; [done |]. simpl. intros [= <-]. by rewrite Hp, Hn.
  - simpl. intros [= <-]. by rewrite lookup_insert_eq.
Qed.

Lemma last_byte_snoc (s : string) (c : ascii) : last_byte (s +:+ String c "") = Some c.
Proof.
  induction s as [| a s IH]; [done |].
  rewrite append_cons. simpl. rewrite IH.
  destruct (s +:+ String c "") eqn:E; [| done].
  destruct s; discriminate E.
Qed.

Lemma drop_last_snoc (s : string) (c : ascii) : drop_last (s +:+ String c "") = s.
Proof.
  induction s as [| a s IH]; [done |].
  rewrite append_cons. simpl. rewrite IH.
  destruct (s +:+ String c "") eqn:E; [| done].
  destruct s; discriminate E.
Qed.

Lemma last_byte_None (s : string) : last_byte s = None -> s = "".
Proof.
  induction s as [| a s IH]; [done |]. simpl.
  destruct s; [done |]. intros H. apply IH in H. discriminate H.
Qed.

(** The name computed depends on the disk only through which paths are
    regular files. *)
Lemma name_of_ext (nm : namer) (st st' : State) :
  (forall p, isFileExist p st = isFileExist p st') -> name_of nm st = name_of nm st'.
Proof.
  intros Hext.
  destruct (name_first_free nm st) as (n & -> & Hfree & Hbelow).
  destruct (name_first_free nm st') as (n' & -> & Hfree' & Hbelow').
  f_equal. destruct (N.lt_trichotomy n n') as [Hlt | [-> | Hgt]]; [| done |].
  - specialize (Hbelow' n Hlt). rewrite <- Hext in Hbelow'. congruence.
  - specialize (Hbelow n' Hgt). rewrite Hext in Hbelow. congruence.
Qed.

(** ** Initialize *)

(** The handle [Initialize] installs before it opens the file. *)
Lemma Initialize_unfold (fileDir fileName : string) (now : Time) (st : State) (c : ascii) :
  last_byte fileDir = Some c ->
  let dir := if Ascii.eqb c BACKSLASH || Ascii.eqb c SLASH then drop_last fileDir else fileDir in
  let f := mkLOG_FILE dir fileName now "" None None in
  let fn := name_of (LogName f) st in
  let st2 := OS.MkdirAll (name_dir (LogName f)) (set_logFile (Some f) st) in
  Initialize fileDir fileName now st =
    match OS.OpenFile fn st2 with
    | (None, st3) => (Panicking (ErrorValue ("open " +:+ fn)), st3)
    | (Some fd, st3) =>
        (Returned tt,
         set_monitors (S (monitors st3))
           (set_std_flags logConsoleFlag
              (set_logFile
                 (Some (mkLOG_FILE dir fileName now fn (Some fd)
                          (Some (mkLogger (Some fd) logFlags)))) st3)))
    end.
Proof.
  intros Hc. cbv zeta. unfold Initialize. rewrite Hc.
  set (f := mkLOG_FILE _ fileName now "" None None).
  pose proof (newlogfile_state f (set_logFile (Some f) st)) as Hst.
  assert (fst (newlogfile f (set_logFile (Some f) st)) = fst (newlogfile f st)) as Hfn
    by (apply (name_of_ext (LogName f)); reflexivity).
  destruct (newlogfile f (set_logFile (Some f) st)) as [fn st2]. simpl in Hst, Hfn.
  subst st2. simpl. by rewrite <- Hfn.
Qed.

Lemma Initialize_handle (fileDir fileName : string) (now : Time) (st : State) (c : ascii) :
  last_byte fileDir = Some c ->
  exists f,
    logFile (snd (Initialize fileDir fileName now st)) = Some f /\
    log_dir f = (if Ascii.eqb c BACKSLASH || Ascii.eqb c SLASH
                 then drop_last fileDir else fileDir) /\
    log_filename f = fileName /\ timestamp f = now.
Proof.
  intros Hc. rewrite (Initialize_unfold fileDir fileName now st c Hc). cbv zeta.
  set (f := mkLOG_FILE _ fileName now "" None None).
  set (st2 := OS.MkdirAll _ _).
  assert (logFile st2 = Some f) as Hst2.
  { unfold st2.
    destruct (MkdirAll_frame (name_dir (LogName f)) (set_logFile (Some f) st))
      as ((_ & _ & _ & ->) & _). done. }
  destruct (OpenFile_frame (name_of (LogName f) st) st2) as ((_ & _ & _ & Hlf) & _).
  destruct (OS.OpenFile (name_of (LogName f) st) st2) as [[fd |] st3]; cbn [snd] in *.
  - eexists. split; [reflexivity |]. done.
  - exists f. by rewrite Hlf.
Qed.

(** X8. [Initialize] cuts exactly one trailing separator, slash or
    backslash, off the directory it is given and keeps a directory without
    one as it is; the handle carries that directory, the base name and the
    time of the call, also when the open that follows fails.  So the
    directory ["/"] becomes the empty string. *)
Theorem Initialize_log_dir (dir fileName : string) (now : Time) (st : State) :
  (forall c, c = SLASH \/ c = BACKSLASH ->
     exists f,
       logFile (snd (Initialize (dir +:+ String c "") fileName now st)) = Some f /\
       log_dir f = dir /\ log_filename f = fileName /\ timestamp f = now) /\
  (forall c, last_byte dir = Some c -> c <> SLASH -> c <> BACKSLASH ->
     exists f,
       logFile (snd (Initialize dir fileName now st)) = Some f /\
       log_dir f = dir /\ log_filename f = fileName /\ timestamp f = now).
Proof.
  split.
  - intros c Hc.
    destruct (Initialize_handle (dir +:+ String c "") fileName now st c (last_byte_snoc dir c))
      as (f & Hf & Hd & Hrest).
    exists f. split; [done |]. split; [| done].
    rewrite Hd, drop_last_snoc. by destruct Hc as [-> | ->].
  - intros c Hc Hs Hb.
    destruct (Initialize_handle dir fileName now st c Hc) as (f & Hf & Hd & Hrest).
    exists f. split; [done |]. split; [| done].
    rewrite Hd. apply Ascii.eqb_neq in Hs, Hb. by rewrite Hs, Hb.
Qed.

Lemma Initialize_log_dir_witness :
  exists f,
    logFile (snd (Initialize ("log/" +:+ String SLASH "") "srv" t_sample st_boot)) = Some f /\
    log_dir f = "log/".
Proof.
  destruct (proj1 (Initialize_log_dir "log/" "srv" t_sample st_boot) SLASH) as (f & H1 & H2 & _).
  - by left.
  - by exists f.
Defined.

Lemma Initialize_returned (fileDir fileName : string) (now : Time) (st : State) :
  fst (Initialize fileDir fileName now st) = Returned tt ->
  let st' := snd (Initialize fileDir fileName now st) in
  exists f,
    logFile st' = Some f /\
    logfile f = Some (next_fd st) /\
    logger f = Some (mkLogger (Some (next_fd st)) logFlags) /\
    log_filename f = fileName /\ timestamp f = now /\
    fds st' = <[next_fd st := logfilepath f]> (fds st) /\
    next_fd st' = S (next_fd st) /\
    isFileExist (logfilepath f) st' = true /\
    isFileExist (logfilepath f) st = false /\
    logfilepath f = name_of (LogName (mkLOG_FILE (log_dir f) fileName now "" None None)) st /\
    monitors st' = S (monitors st) /\
    std_flags st' = logConsoleFlag /\
    logLevel st' = logLevel st /\ logConsole st' = logConsole st /\
    logConsolePrefix st' = logConsolePrefix st /\
    stderr st' = stderr st /\ stdout st' = stdout st.
Proof.
  destruct (last_byte fileDir) as [c |] eqn:Hc;
    [| unfold Initialize; by rewrite Hc].
  rewrite (Initialize_unfold fileDir fileName now st c Hc). cbv zeta.
  set (f := mkLOG_FILE _ fileName now "" None None).
  set (st2 := OS.MkdirAll _ _).
  destruct (name_first_free (LogName f) st) as (n & Hname & Hfree & _).
  rewrite <- Hname in Hfree.
  pose proof (OpenFile_opened (name_of (LogName f) st) st2) as Hopen.
  destruct (OpenFile_frame (name_of (LogName f) st) st2)
    as ((O1 & O2 & O3 & _) & _ & O5 & O6 & _ & O8).
  destruct (MkdirAll_frame (name_dir (LogName f)) (set_logFile (Some f) st))
    as ((M1 & M2 & M3 & _) & M4 & M5 & _ & M7 & M8 & _ & M10).
  fold st2 in M1, M2, M3, M4, M5, M7, M8, M10.
  destruct (OS.OpenFile (name_of (LogName f) st) st2) as [[fd |] st3]; [| done].
  intros _. destruct (Hopen fd eq_refl) as (-> & Hfds & Hnext & Hex).
  simpl in *. eexists. split; [reflexivity |]. simpl.
  rewrite M5. repeat split; try congruence. exact Hex.
Qed.

(** X9. When [Initialize] returns, the handle holds a freshly opened
    descriptor on its path, with its logger writing there; the path is a
    regular file now and was not one before the call, so no earlier log
    file is appended to.  Exactly one monitor has been started, the
    standard logger's flags are 0, and every descriptor that was open before
    is still open: a previous handle's file is not closed. *)
Theorem Initialize_success (fileDir fileName : string) (now : Time) (st : State) :
  fst (Initialize fileDir fileName now st) = Returned tt ->
  let st' := snd (Initialize fileDir fileName now st) in
  exists f,
    logFile st' = Some f /\
    logfile f = Some (next_fd st) /\
    logger f = Some (mkLogger (Some (next_fd st)) logFlags) /\
    fds st' = <[next_fd st := logfilepath f]> (fds st) /\
    isFileExist (logfilepath f) st' = true /\
    isFileExist (logfilepath f) st = false /\
    monitors st' = S (monitors st) /\
    std_flags st' = 0%Z.
Proof.
  intros H. destruct (Initialize_returned fileDir fileName now st H)
    as (f & H1 & H2 & H3 & _ & _ & H4 & _ & H5 & H6 & _ & H7 & H8 & _).
  exists f. done.
Qed.

Lemma Initialize_success_witness :
  exists f, logFile st_running = Some f /\ logfile f = Some 0%nat.
Proof.
  destruct (Initialize_success "./log/" "login" t_sample st_boot) as (f & H1 & H2 & _).
  - vm_compute. reflexivity.
  - exists f. split; [exact H1 | exact H2].
Defined.

Section InitializeFailure.

Variable Sprintf : string -> list value -> string.

(** X10. When the directory is not empty and [Initialize] does not
    return, it has panicked with the error of its open, after replacing the
    handle by one without file and logger; no monitor was started and no
    descriptor opened.  If the caller recovers and goes on, every
    package-level call that passes the threshold returns normally, writes
    to no file and puts the recovered nil dereference on standard error
    instead of the record, whatever the console flag. *)
Theorem Initialize_failure (fileDir fileName : string) (now : Time) (st : State) :
  fileDir <> "" ->
  fst (Initialize fileDir fileName now st) <> Returned tt ->
  let st' := snd (Initialize fileDir fileName now st) in
  exists f fn,
    fst (Initialize fileDir fileName now st) = Panicking (ErrorValue ("open " +:+ fn)) /\
    logFile st' = Some f /\ logfile f = None /\ logger f = None /\
    monitors st' = monitors st /\ fds st' = fds st /\
    forall e sv sh,
      (logLevel st' <= level_of sv)%Z ->
      fst (call_plain Sprintf e sv sh st') = Returned tt /\
      fs (snd (call_plain Sprintf e sv sh st')) = fs st' /\
      stderr (snd (call_plain Sprintf e sv sh st')) =
        (stderr st' ++
         ["err runtime error: invalid memory address or nil pointer dereference"])%list.
Proof.
  intros Hdir. destruct (last_byte fileDir) as [c |] eqn:Hc;
    [| by apply last_byte_None in Hc].
  rewrite (Initialize_unfold fileDir fileName now st c Hc). cbv zeta.
  set (f := mkLOG_FILE _ fileName now "" None None).
  set (st2 := OS.MkdirAll _ _).
  assert (logFile st2 = Some f /\ monitors st2 = monitors st /\ fds st2 = fds st)
    as (Hst2 & Hmon & Hfds).
  { unfold st2.
    destruct (MkdirAll_frame (name_dir (LogName f)) (set_logFile (Some f) st))
      as ((_ & _ & _ & ->) & -> & _ & _ & _ & _ & _ & ->). done. }
  pose proof (OpenFile_None (name_of (LogName f) st) st2) as Hnone.
  destruct (OS.OpenFile (name_of (LogName f) st) st2) as [[fd |] st3]; [done |].
  intros _. cbn [fst snd] in *. rewrite (Hnone eq_refl).
  exists f, (name_of (LogName f) st). do 6 (split; [done |]).
  intros e sv sh Hle. rewrite call_plain_unfold.
  destruct (Z.leb_spec (logLevel st2) (level_of sv)); [| lia].
  by rewrite (emit_nil_logger e (level_of sv) _ st2 f Hst2 eq_refl).
Qed.

End InitializeFailure.

Lemma Initialize_failure_witness :
  exists f, logFile st_broken = Some f /\ logger f = None.
Proof.
  destruct (Initialize_failure (fun fm _ => fm) "./log/" "login" t_sample
              (set_denied (fun _ => true) st_boot)) as (f & fn & _ & H1 & _ & H2 & _).
  - discriminate.
  - vm_compute. discriminate.
  - exists f. split; [exact H1 | exact H2].
Defined.

(** X11. A second [Initialize] that returns leaves the first handle's
    descriptor open on its file, which nothing refers to any more; the new
    handle has a different descriptor and a different path, also when
    directory, base name and second of the clock are the same as before, and
    a second monitor is running. *)
Theorem Initialize_twice (dir1 name1 dir2 name2 : string) (t1 t2 : Time) (st : State) :
  let r1 := Initialize dir1 name1 t1 st in
  let r2 := Initialize dir2 name2 t2 (snd r1) in
  fst r1 = Returned tt -> fst r2 = Returned tt ->
  exists f1 f2 fd1 fd2,
    logFile (snd r1) = Some f1 /\ logFile (snd r2) = Some f2 /\
    logfile f1 = Some fd1 /\ logfile f2 = Some fd2 /\ fd1 <> fd2 /\
    logfilepath f1 <> logfilepath f2 /\
    fds (snd r2) !! fd1 = Some (logfilepath f1) /\
    fds (snd r2) !! fd2 = Some (logfilepath f2) /\
    monitors (snd r2) = S (S (monitors st)).
Proof.
  cbv zeta. intros H1 H2.
  destruct (Initialize_returned dir1 name1 t1 st H1)
    as (f1 & A1 & A2 & _ & _ & _ & A3 & A4 & A5 & _ & _ & A6 & _).
  destruct (Initialize_returned dir2 name2 t2 _ H2)
    as (f2 & B1 & B2 & _ & _ & _ & B3 & _ & _ & B5 & _ & B6 & _).
  exists f1, f2, (next_fd st), (next_fd (snd (Initialize dir1 name1 t1 st))).
  rewrite A4 in *. do 4 (split; [done |]). split; [lia |].
  split; [congruence |]. rewrite B3, A3.
  split; [| split; [by rewrite lookup_insert_eq | congruence]].
  rewrite lookup_insert_ne by lia. by rewrite lookup_insert_eq.
Qed.

Lemma Initialize_twice_witness :
  exists f2,
    logFile (snd (Initialize "./log/" "login" t_sample st_running)) = Some f2 /\
    fds (snd (Initialize "./log/" "login" t_sample st_running)) !! 0%nat
      = Some "./log/2015-05-16//login.10_22_33.log".
Proof.
  destruct (Initialize_twice "./log/" "login" "./log/" "login" t_sample t_sample st_boot)
    as (f1 & f2 & fd1 & fd2 & H1 & H2 & H3 & _).
  - vm_compute. reflexivity.
  - vm_compute. reflexivity.
  - exists f2. split; [exact H2 |]. vm_compute. reflexivity.
Defined.

(** ** Rotation *)

Lemma rename_prepare_frame (f : LOG_FILE) (now : Time) (st : State) :
  let st2 := snd (rename_prepare f now st) in
  fst (rename_prepare f now st) =
    name_of (LogName (mkLOG_FILE (log_dir f) (log_filename f) now (logfilepath f)
                        (logfile f) (logger f))) st /\
  same_package st st2 /\ stderr st2 = stderr st /\ stdout st2 = stdout st /\
  monitors st2 = monitors st /\
  fds st2 = match logfile f with
            | Some old => delete old (fds st)
            | None => fds st
            end /\
  (forall p, isFileExist p st2 = isFileExist p st) /\
  (forall p, is_Some (fs st !! p) -> fs st2 !! p = fs st !! p).
Proof.
  unfold rename_prepare. set (f1 := mkLOG_FILE _ _ _ _ _ _).
  pose proof (newlogfile_state f1 st) as Hst. simpl.
  destruct (newlogfile f1 st) as [fn st1]. simpl in Hst. subst st1. simpl.
  destruct (MkdirAll_frame (name_dir (LogName f1)) st)
    as (M0 & M1 & _ & _ & M4 & M5 & _ & M7).
  split; [done |].
  destruct (logfile f) as [old |]; simpl.
  - repeat split; try apply M0; try done.
    + by rewrite <- M1.
    + intros p. rewrite isFileExist_Close. apply isFileExist_MkdirAll.
    + intros p Hp. by apply MkdirAll_lookup.
  - repeat split; try apply M0; try done.
    + intros p. apply isFileExist_MkdirAll.
    + intros p Hp. by apply MkdirAll_lookup.
Qed.

(** What [rename] does whether or not its open succeeds. *)
Lemma rename_facts (f : LOG_FILE) (now : Time) (st : State) :
  let st' := rename f now st in
  exists f',
    logFile st' = Some f' /\
    log_dir f' = log_dir f /\ log_filename f' = log_filename f /\ timestamp f' = now /\
    logfilepath f' = fst (rename_prepare f now st) /\
    logfile f' = fst (OS.OpenFile (fst (rename_prepare f now st)) (snd (rename_prepare f now st))) /\
    logger f' = Some (mkLogger (logfile f') logFlags) /\
    logLevel st' = logLevel st /\ logConsole st' = logConsole st /\
    logConsolePrefix st' = logConsolePrefix st /\
    stderr st' = stderr st /\ stdout st' = stdout st /\ monitors st' = monitors st /\
    (only_handle_open f st -> only_handle_open f' st') /\
    files_kept st st' /\
    (forall p, is_Some (fs st !! p) -> fs st' !! p = fs st !! p).
Proof.
  cbv zeta. rewrite rename_unfold.
  destruct (rename_prepare_frame f now st)
    as (_ & (P1 & P2 & P3 & _) & P5 & P6 & P7 & P8 & P9 & P10).
  destruct (rename_prepare f now st) as [fn st2]. cbn [fst snd] in *.
  destruct (OpenFile_frame fn st2) as ((O1 & O2 & O3 & _) & _ & O5 & O6 & _ & O8).
  pose proof (files_kept_OpenFile fn st2) as Hkept.
  pose proof (OpenFile_opened fn st2) as Hopened.
  pose proof (OpenFile_None fn st2) as Hnone.
  pose proof (fun p => OpenFile_lookup fn p st2) as Hlook.
  destruct (OS.OpenFile fn st2) as [file st3]. cbn [fst snd] in *.
  eexists. split; [reflexivity |]. cbn.
  do 6 (split; [done |]).
  split; [congruence |]. split; [congruence |]. split; [congruence |].
  split; [congruence |]. split; [congruence |]. split; [congruence |].
  split; [| split].
  - intros Hone k Hk. change (is_Some (fds st3 !! k)) in Hk. cbn [logfile].
    destruct file as [fd |].
    + destruct (Hopened fd eq_refl) as (_ & Hfds & _).
      rewrite Hfds, P8 in Hk.
      destruct (decide (k = fd)) as [-> | Hne]; [done |].
      rewrite lookup_insert_ne in Hk by done. exfalso.
      destruct (logfile f) as [old |] eqn:Hold.
      * destruct (decide (k = old)) as [-> | Hko].
        -- rewrite lookup_delete_eq in Hk. by destruct Hk.
        -- rewrite lookup_delete_ne in Hk by done. apply Hone in Hk. congruence.
      * apply Hone in Hk. congruence.
    + rewrite (Hnone eq_refl), P8 in Hk. exfalso.
      destruct (logfile f) as [old |] eqn:Hold.
      * destruct (decide (k = old)) as [-> | Hko].
        -- rewrite lookup_delete_eq in Hk. by destruct Hk.
        -- rewrite lookup_delete_ne in Hk by done. apply Hone in Hk. congruence.
      * apply Hone in Hk. congruence.
  - intros p Hp. apply (Hkept p). by rewrite P9.
  - intros p Hp. rewrite Hlook; [by apply P10 |]. rewrite P10; done.
Qed.

(** X12. When the open of the new file succeeds, [rename] leaves the
    handle with the same directory and base name, the time of the
    rotation, and a new descriptor open on the new path, to which the new
    logger writes.  The new path was not a file before, so rotation never
    appends to an older log; the previous descriptor is closed; and if the
    handle's descriptor was the only one open before, the new one is the
    only one open after. *)
Theorem rename_open_success (f : LOG_FILE) (now : Time) (st : State) (fd : nat) :
  fst (OS.OpenFile (fst (rename_prepare f now st)) (snd (rename_prepare f now st))) = Some fd ->
  let st' := rename f now st in
  exists f',
    logFile st' = Some f' /\
    log_dir f' = log_dir f /\ log_filename f' = log_filename f /\ timestamp f' = now /\
    logfile f' = Some fd /\ logger f' = Some (mkLogger (Some fd) logFlags) /\
    fds st' !! fd = Some (logfilepath f') /\
    isFileExist (logfilepath f') st' = true /\
    isFileExist (logfilepath f') st = false /\
    (forall old, logfile f = Some old -> old <> fd -> fds st' !! old = None) /\
    (only_handle_open f st -> only_handle_open f' st').
Proof.
  intros Hopen. cbv zeta.
  destruct (rename_facts f now st)
    as (f' & R1 & R2 & R3 & R4 & R5 & R6 & R7 & _ & _ & _ & _ & _ & _ & R8 & _).
  exists f'. do 4 (split; [done |]).
  rewrite Hopen in R6. rewrite R6 in R7. do 2 (split; [done |]).
  pose proof (rename_prepare_name_free f now st) as Hfree.
  destruct (rename_prepare_frame f now st) as (_ & _ & _ & _ & _ & P8 & P9 & _).
  rewrite P9 in Hfree. rewrite R5.
  assert (fds (rename f now st) =
            <[fd := fst (rename_prepare f now st)]> (fds (snd (rename_prepare f now st)))
          /\ isFileExist (fst (rename_prepare f now st)) (rename f now st) = true)
    as [Hfds Hex].
  { rewrite rename_unfold.
    destruct (rename_prepare f now st) as [fn st2]. cbn [fst snd] in *.
    destruct (OpenFile_opened fn st2 fd Hopen) as (_ & Hf & _ & He).
    by destruct (OS.OpenFile fn st2) as [file st3]. }
  split; [by rewrite Hfds, lookup_insert_eq |]. split; [done |]. split; [done |].
  split; [| done].
  intros old Hold Hne. rewrite Hfds, lookup_insert_ne by done.
  cbv zeta in P8. rewrite P8, Hold. apply lookup_delete_eq.
Qed.

Lemma rename_open_success_witness :
  exists f', logFile (rename f_running t_later st_running) = Some f' /\ logfile f' = Some 1%nat.
Proof.
  destruct (rename_open_success f_running t_later st_running 1) as (f' & H1 & _ & _ & _ & H2 & _).
  - vm_compute. reflexivity.
  - exists f'. split; [exact H1 | exact H2].
Defined.

(** ** The monitor *)

Lemma isMustRename_due (f : LOG_FILE) (now : Time) (st : State) :
  fst (isMustRename f now st) = true ->
  snd (isMustRename f now st) = st.
Proof.
  unfold isMustRename.
  destruct (checkFileDate f now); [done |].
  destruct (checkFileSize f st); [done |].
  by destruct (checkFileExist f st).
Qed.

Lemma isMustRename_not_due (f : LOG_FILE) (now : Time) (st : State) :
  fst (isMustRename f now st) = false ->
  snd (isMustRename f now st) = OS.MkdirAll (log_dir f) st.
Proof.
  unfold isMustRename.
  destruct (checkFileDate f now); [done |].
  destruct (checkFileSize f st); [done |].
  by destruct (checkFileExist f st).
Qed.

Lemma fileCheck_unfold (now_check now_rename : Time) (st : State) (f : LOG_FILE) :
  logFile st = Some f ->
  fileCheck now_check now_rename st =
    (Returned tt,
     if fst (isMustRename f now_check st) then rename f now_rename st
     else OS.MkdirAll (log_dir f) st).
Proof.
  intros Hf. unfold fileCheck, with_defer. rewrite Hf.
  pose proof (isMustRename_due f now_check st) as Hd.
  pose proof (isMustRename_not_due f now_check st) as Hn.
  destruct (isMustRename f now_check st) as [[|] st1]; simpl in *.
  - by rewrite Hd.
  - by rewrite Hn.
Qed.

(** What one tick keeps, whether it rotates or not. *)
Lemma fileCheck_step (now_check now_rename : Time) (st : State) (f : LOG_FILE) :
  logFile st = Some f ->
  let st' := snd (fileCheck now_check now_rename st) in
  fst (fileCheck now_check now_rename st) = Returned tt /\
  exists f',
    logFile st' = Some f' /\
    log_dir f' = log_dir f /\ log_filename f' = log_filename f /\
    logLevel st' = logLevel st /\ logConsole st' = logConsole st /\
    logConsolePrefix st' = logConsolePrefix st /\
    stderr st' = stderr st /\ stdout st' = stdout st /\ monitors st' = monitors st /\
    (logger f <> None -> logger f' <> None) /\
    (only_handle_open f st -> only_handle_open f' st') /\
    (forall p, is_Some (fs st !! p) -> fs st' !! p = fs st !! p).
Proof.
  intros Hf. cbv zeta. rewrite (fileCheck_unfold now_check now_rename st f Hf).
  split; [done |]. cbn [snd].
  destruct (fst (isMustRename f now_check st)).
  - destruct (rename_facts f now_rename st)
      as (f' & R1 & R2 & R3 & _ & _ & _ & R7 & R8 & R9 & R10 & R11 & R12 & R13 & R14 & _ & R16).
    exists f'. do 9 (split; [done |]). split; [by rewrite R7 |]. done.
  - destruct (MkdirAll_frame (log_dir f) st)
      as ((M1 & M2 & M3 & M4) & M5 & _ & _ & M8 & M9 & _ & M11).
    exists f. split; [congruence |]. do 8 (split; [done |]). split; [done |].
    split.
    + intros Hone k Hk. apply Hone. by rewrite <- M5.
    + intros p Hp. by apply MkdirAll_lookup.
Qed.

(** X13. A tick of the monitor with a handle present rotates when the day
    of the year has changed, when the current file has reached 512 MiB, or
    when the current path is no longer a file: afterwards the handle has
    the time of the rotation and a path that was not a file before.  On
    any other tick the handle and the descriptors stay as they are.
    Without a handle a tick does nothing. *)
Theorem fileCheck_rotates_when_due (now_check now_rename : Time) (st : State) :
  let st' := snd (fileCheck now_check now_rename st) in
  (logFile st = None -> st' = st) /\
  (forall f, logFile st = Some f ->
     (YearDay now_check <> YearDay (timestamp f) \/
      (exists fi, OS.Stat (logfilepath f) st = Some fi /\ (512 * 1024 * 1024 <= Size fi)%Z) \/
      isFileExist (logfilepath f) st = false ->
      exists f',
        logFile st' = Some f' /\ timestamp f' = now_rename /\
        isFileExist (logfilepath f') st = false) /\
     (YearDay now_check = YearDay (timestamp f) ->
      (forall fi, OS.Stat (logfilepath f) st = Some fi -> (Size fi < 512 * 1024 * 1024)%Z) ->
      isFileExist (logfilepath f) st = true ->
      logFile st' = Some f /\ fds st' = fds st)).
Proof.
  cbv zeta. split.
  - intros Hf. unfold fileCheck, with_defer. by rewrite Hf.
  - intros f Hf. rewrite (fileCheck_unfold now_check now_rename st f Hf). cbn [snd].
    split.
    + intros Hdue.
      assert (fst (isMustRename f now_check st) = true) as ->.
      { unfold isMustRename, checkFileDate, checkFileSize, checkFileExist, logMaxSize.
        destruct Hdue as [Hday | [(fi & Hfi & Hsz) | Hex]].
        - by destruct (Z.eqb_spec (YearDay now_check) (YearDay (timestamp f))).
        - destruct (negb _); [done |]. rewrite Hfi.
          by destruct (Z.geb_spec (Size fi) (512 * 1024 * 1024)); [| lia].
        - apply isMustRename_missing_file with (now := now_check) in Hex.
          exact Hex. }
      destruct (rename_facts f now_rename st) as (f' & R1 & _ & _ & R4 & R5 & _).
      exists f'. split; [done |]. split; [done |]. rewrite R5.
      pose proof (rename_prepare_name_free f now_rename st) as Hfree.
      destruct (rename_prepare_frame f now_rename st) as (_ & _ & _ & _ & _ & _ & P9 & _).
      by rewrite P9 in Hfree.
    + intros Hday Hsz Hex.
      assert (fst (isMustRename f now_check st) = false) as ->.
      { unfold isMustRename, checkFileDate, checkFileSize, checkFileExist, logMaxSize.
        rewrite Hday, Z.eqb_refl, Hex. simpl.
        destruct (OS.Stat (logfilepath f) st) as [fi |] eqn:Hfi; [| done].
        specialize (Hsz fi eq_refl).
        by destruct (Z.geb_spec (Size fi) (512 * 1024 * 1024)); [lia |]. }
      destruct (MkdirAll_frame (log_dir f) st) as ((_ & _ & _ & M4) & M5 & _).
      split; congruence.
Qed.

Lemma fileCheck_rotates_when_due_witness :
  (exists f', logFile (snd (fileCheck t_later t_later st_running)) = Some f' /\
              timestamp f' = t_later) /\
  logFile (snd (fileCheck t_sample t_sample st_running)) = Some f_running.
Proof.
  destruct (fileCheck_rotates_when_due t_later t_later st_running) as [_ H1].
  destruct (fileCheck_rotates_when_due t_sample t_sample st_running) as [_ H2].
  split.
  - destruct (proj1 (H1 f_running eq_refl)) as (f' & Hf & Ht & _).
    + left. vm_compute. discriminate.
    + by exists f'.
  - apply (proj2 (H2 f_running eq_refl)).
    + reflexivity.
    + intros fi Hfi. vm_compute in Hfi. injection Hfi as <-. reflexivity.
    + vm_compute. reflexivity.
Defined.

(** X14. Over any number of ticks the monitor never panics and, with a
    handle present, keeps it present with the same directory and base
    name; it leaves the threshold, the console flag and prefix and both
    consoles alone; a handle with a logger keeps having one; if the
    handle's descriptor is the only one open it stays so across rotations;
    and no entry that is on disk is removed or changed.  Without a handle
    the ticks do nothing. *)
Theorem fileMonitor_invariant (ticks : list (Time * Time)) (st : State) :
  let st' := snd (fileMonitor ticks st) in
  fst (fileMonitor ticks st) = Returned tt /\
  (logFile st = None -> st' = st) /\
  (forall f, logFile st = Some f ->
     exists f',
       logFile st' = Some f' /\
       log_dir f' = log_dir f /\ log_filename f' = log_filename f /\
       logLevel st' = logLevel st /\ logConsole st' = logConsole st /\
       logConsolePrefix st' = logConsolePrefix st /\
       stderr st' = stderr st /\ stdout st' = stdout st /\
       (logger f <> None -> logger f' <> None) /\
       (only_handle_open f st -> only_handle_open f' st') /\
       (forall p, is_Some (fs st !! p) -> fs st' !! p = fs st !! p)).
Proof.
  cbv zeta. revert st.
  induction ticks as [| [t1 t2] rest IH]; intros st.
  - split; [done |]. split; [done |]. intros f Hf. exists f. done.
  - change (fileMonitor ((t1, t2) :: rest) st) with
      (match fileCheck t1 t2 st with
       | (Returned a, s1) => (fun _ : unit => fileMonitor rest) a s1
       | (Panicking p, s1) => (Panicking p, s1)
       end).
    destruct (logFile st) as [f |] eqn:Hf.
    + destruct (fileCheck_step t1 t2 st f Hf)
        as (Hret & f1 & S1 & S2 & S3 & S4 & S5 & S6 & S7 & S8 & _ & S10 & S11 & S12).
      destruct (fileCheck t1 t2 st) as [[[] | p] s1]; [| done]. cbn [fst snd] in *.
      destruct (IH s1) as (I1 & _ & I3).
      split; [done |]. split; [done |]. intros f0 [= <-].
      destruct (I3 f1 S1) as (f' & J1 & J2 & J3 & J4 & J5 & J6 & J7 & J8 & J9 & J10 & J11).
      exists f'. split; [done |].
      split; [congruence |]. split; [congruence |]. split; [congruence |].
      split; [congruence |]. split; [congruence |]. split; [congruence |].
      split; [congruence |]. split; [auto |]. split; [auto |].
      intros p Hp. rewrite J11; [by apply S12 |]. rewrite S12; done.
    + assert (fileCheck t1 t2 st = (Returned tt, st)) as ->.
      { unfold fileCheck, with_defer. by rewrite Hf. }
      destruct (IH st) as (I1 & I2 & _). split; [done |]. split; [auto | done].
Qed.

Lemma fileMonitor_invariant_witness :
  exists f',
    logFile (snd (fileMonitor [(t_sample, t_sample); (t_later, t_later)] st_running)) = Some f' /\
    log_dir f' = "./log" /\ log_filename f' = "login".
Proof.
  destruct (fileMonitor_invariant [(t_sample, t_sample); (t_later, t_later)] st_running)
    as (_ & _ & H).
  destruct (H f_running eq_refl) as (f' & H1 & H2 & H3 & _).
  exists f'. split; [exact H1 |]. split; [exact H2 | exact H3].
Defined.

(** ** A directory where the file should be *)

(** X15. [isFileExist] answers false for a directory, so when a directory
    sits at the plain name, without suffix, the name computation returns
    that very name, for log files and for crash dumps alike, and the open
    that follows fails. *)
Theorem name_taken_by_directory (nm : namer) (st : State) (n : node) :
  OS.Stat (candidate nm 0) st = Some n -> IsDir n = true ->
  name_of nm st = candidate nm 0 /\
  fst (OS.OpenFile (name_of nm st) (OS.MkdirAll (name_dir nm) st)) = None.
Proof.
  intros Hstat Hdir.
  assert (isFileExist (candidate nm 0) st = false) as Hno.
  { unfold isFileExist. by rewrite Hstat, Hdir. }
  destruct (name_first_free nm st) as (k & Hname & _ & Hbelow).
  assert (k = 0%N) as ->.
  { destruct (N.eq_dec k 0) as [| Hk]; [done |].
    specialize (Hbelow 0%N ltac:(lia)). congruence. }
  split; [done |]. rewrite Hname.
  unfold OS.OpenFile. destruct (denied _ _); [done |].
  rewrite MkdirAll_lookup by (unfold OS.Stat in Hstat; eauto).
  unfold OS.Stat in Hstat. by rewrite Hstat, Hdir.
Qed.

Lemma name_taken_by_directory_witness :
  name_of (DumpName t_sample)
    (set_fs {["./exceptions/2015-05-16/exceptions.10_22_33.log" := dir_node]} st_boot)
  = "./exceptions/2015-05-16/exceptions.10_22_33.log".
Proof.
  destruct (name_taken_by_directory (DumpName t_sample)
              (set_fs {["./exceptions/2015-05-16/exceptions.10_22_33.log" := dir_node]} st_boot)
              dir_node) as [H _].
  - vm_compute. reflexivity.
  - reflexivity.
  - exact H.
Defined.

(** ** Crash capture and the rest of the state *)

Lemma CatchException_captured (now : Time) (stack : string) (err : panic_value) (st : State)
    (fd : nat) :
  fst (OS.OpenFile (fst (newDumpFile now st)) (snd (newDumpFile now st))) = Some fd ->
  CatchException now stack (Some err) st =
    (None,
     OS.Close fd
       (fmt_Println (dump_block err stack)
          (snd (OS.Write (Some fd) (dump_block err stack +:+ LF)
                  (snd (OS.OpenFile (name_of (DumpName now) st)
                          (OS.MkdirAll (name_dir (DumpName now)) st))))))).
Proof.
  intros Hopen.
  pose proof (newDumpFile_state now st) as Hst.
  destruct (newDumpFile now st) as [fn st1] eqn:Hname. cbn [fst snd] in *. subst st1.
  assert (name_of (DumpName now) st = fn) as -> by (simpl; by rewrite Hname).
  destruct (OS.OpenFile fn _) as [file st2] eqn:Hof. cbn [fst snd] in *. subst file.
  exact (CatchException_opened now stack err st _ st2 fn fd Hname Hof).
Qed.

Lemma CatchException_keeps_captured (now : Time) (stack : string) (err : panic_value)
    (st : State) (fd : nat) :
  fst (OS.OpenFile (fst (newDumpFile now st)) (snd (newDumpFile now st))) = Some fd ->
  let st' := snd (CatchException now stack (Some err) st) in
  same_package st st' /\ stderr st' = stderr st /\ monitors st' = monitors st /\
  (forall p, is_Some (fs st !! p) -> fs st' !! p = fs st !! p) /\
  (fds st !! next_fd st = None -> fds st' = fds st).
Proof.
  intros Hopen. cbv zeta.
  rewrite (CatchException_captured now stack err st fd Hopen). cbn [snd].
  rewrite newDumpFile_state in Hopen.
  change (fst (newDumpFile now st)) with (name_of (DumpName now) st) in Hopen.
  set (fn := name_of (DumpName now) st) in *.
  set (st1 := OS.MkdirAll (name_dir (DumpName now)) st) in *.
  destruct (MkdirAll_frame (name_dir (DumpName now)) st)
    as ((M1 & M2 & M3 & M4) & M5 & M6 & _ & M8 & _ & _ & M11).
  fold st1 in M1, M2, M3, M4, M5, M6, M8, M11.
  destruct (OpenFile_frame fn st1) as ((O1 & O2 & O3 & O4) & _ & O6 & _ & _ & O9).
  destruct (OpenFile_opened fn st1 fd Hopen) as (Hfd & Hfds & _ & _).
  set (st2 := snd (OS.OpenFile fn st1)) in *.
  destruct (Write_frame (Some fd) (dump_block err stack +:+ LF) st2)
    as (W1 & W2 & W3 & W4 & W5 & W6 & _).
  destruct (Write_frame_rest (Some fd) (dump_block err stack +:+ LF) st2)
    as (_ & _ & _ & W11).
  set (st3 := snd (OS.Write (Some fd) (dump_block err stack +:+ LF) st2)) in *.
  unfold same_package, OS.Close, fmt_Println, set_fds, set_stdout.
  cbn [logLevel logConsole logConsolePrefix logFile stderr monitors fs fds].
  split; [repeat split; congruence |]. split; [congruence |]. split; [congruence |].
  split.
  - intros p Hp.
    assert (fs st2 !! p = fs st !! p) as Hsame.
    { unfold st2. rewrite OpenFile_lookup.
      - by apply MkdirAll_lookup.
      - unfold st1. rewrite MkdirAll_lookup; done. }
    destruct (Write_cases (Some fd) (dump_block err stack +:+ LF) st2 p)
      as [H | (fd' & n & Hfd' & Hp2 & _)]; [unfold st3; congruence |].
    exfalso. injection Hfd' as <-.
    rewrite Hfds, lookup_insert_eq in Hp2. injection Hp2 as <-.
    destruct (name_first_free (DumpName now) st) as (k & Hname & Hfree & _).
    fold fn in Hname. rewrite <- Hname in Hfree.
    unfold OS.OpenFile in Hopen.
    destruct (denied st1 fn); [done |].
    assert (fs st1 !! fn = fs st !! fn) as Hfn by (by apply MkdirAll_lookup).
    rewrite Hfn in Hopen. destruct Hp as [m Hm]. rewrite Hm in Hopen.
    unfold isFileExist, OS.Stat in Hfree. rewrite Hm in Hfree.
    destruct (IsDir m); done.
  - intros Hfresh. rewrite W5, Hfds, Hfd, M6, M5.
    rewrite delete_insert_eq. by apply delete_id.
Qed.

(** X16. [CatchException] never touches the threshold, the console
    flag and prefix, the log handle or standard error, and never changes or
    removes an entry that is on disk: the dump goes to a path that was not a
    file.  With a fresh descriptor number at hand it leaves the descriptor
    table as it found it, so the dump file is closed again.  With no fault
    in flight it does nothing at all. *)
Theorem CatchException_keeps_state (now : Time) (stack : string) (fault : option panic_value)
    (st : State) :
  let st' := snd (CatchException now stack fault st) in
  same_package st st' /\ stderr st' = stderr st /\ monitors st' = monitors st /\
  (forall p, is_Some (fs st !! p) -> fs st' !! p = fs st !! p) /\
  (fds st !! next_fd st = None -> fds st' = fds st) /\
  (fault = None -> st' = st).
Proof.
  cbv zeta. destruct fault as [err |].
  - destruct (fst (OS.OpenFile (fst (newDumpFile now st)) (snd (newDumpFile now st))))
      as [fd |] eqn:Hopen.
    + destruct (CatchException_keeps_captured now stack err st fd Hopen)
        as (H1 & H2 & H3 & H4 & H5). done.
    + rewrite (CatchException_refused now stack err st Hopen). cbn [snd].
      destruct (MkdirAll_frame (name_dir (DumpName now)) st)
        as (M0 & M5 & _ & _ & M8 & _ & _ & M11).
      do 3 (split; [done |]). split; [| done].
      intros p Hp. by apply MkdirAll_lookup.
  - simpl. unfold same_package. done.
Qed.

Lemma CatchException_keeps_state_witness :
  fds (snd (CatchException t_sample "goroutine 1 [running]" (Some (UserValue boom)) st_running))
  = fds st_running.
Proof.
  apply (CatchException_keeps_state t_sample "goroutine 1 [running]" (Some (UserValue boom))
           st_running).
  vm_compute. reflexivity.
Defined.

Lemma CatchException_file (now : Time) (stack : string) (err : panic_value) (st : State)
    (fd : nat) :
  fst (OS.OpenFile (fst (newDumpFile now st)) (snd (newDumpFile now st))) = Some fd ->
  let st' := snd (CatchException now stack (Some err) st) in
  isFileExist (name_of (DumpName now) st) st' = true /\
  exists n earlier,
    fs st' !! name_of (DumpName now) st = Some n /\ IsDir n = false /\
    data n = (earlier ++ [dump_block err stack +:+ LF])%list.
Proof.
  intros Hopen. cbv zeta.
  rewrite (CatchException_captured now stack err st fd Hopen). cbn [snd].
  rewrite newDumpFile_state in Hopen.
  change (fst (newDumpFile now st)) with (name_of (DumpName now) st) in Hopen.
  set (fn := name_of (DumpName now) st) in *.
  set (st1 := OS.MkdirAll (name_dir (DumpName now)) st) in *.
  destruct (OpenFile_Some fn st1 fd Hopen) as (Hfd & _ & n & Hn & Hdir).
  pose proof (Write_appends fd fn (dump_block err stack +:+ LF) n _ Hfd Hn Hdir) as Hw.
  unfold isFileExist, OS.Stat, OS.Close, fmt_Println, set_fds, set_stdout. cbn [fs].
  rewrite Hw. split; [done |]. eexists _, (data n). done.
Qed.

(** X17. Two faults captured in the same second, both dumps opened: the
    second dump goes to a different file than the first, the first file is
    exactly as the first capture left it, and each file ends with the block
    of its own fault. *)
Theorem CatchException_twice (now : Time) (stack1 stack2 : string) (err1 err2 : panic_value)
    (st : State) :
  let fn1 := fst (newDumpFile now st) in
  let st1 := snd (CatchException now stack1 (Some err1) st) in
  let fn2 := fst (newDumpFile now st1) in
  let st2 := snd (CatchException now stack2 (Some err2) st1) in
  is_Some (fst (OS.OpenFile fn1 (snd (newDumpFile now st)))) ->
  is_Some (fst (OS.OpenFile fn2 (snd (newDumpFile now st1)))) ->
  fn1 <> fn2 /\
  fs st2 !! fn1 = fs st1 !! fn1 /\
  (exists n1 earlier,
     fs st2 !! fn1 = Some n1 /\ IsDir n1 = false /\
     data n1 = (earlier ++ [dump_block err1 stack1 +:+ LF])%list) /\
  (exists n2 earlier,
     fs st2 !! fn2 = Some n2 /\ IsDir n2 = false /\
     data n2 = (earlier ++ [dump_block err2 stack2 +:+ LF])%list).
Proof.
  cbv zeta. intros [fd1 Hopen1] [fd2 Hopen2].
  destruct (CatchException_file now stack1 err1 st fd1 Hopen1)
    as (Hex1 & n1 & e1 & Hn1 & Hd1 & Hdata1).
  set (st1 := snd (CatchException now stack1 (Some err1) st)) in *.
  destruct (CatchException_file now stack2 err2 st1 fd2 Hopen2)
    as (_ & n2 & e2 & Hn2 & Hd2 & Hdata2).
  destruct (CatchException_keeps_captured now stack2 err2 st1 fd2 Hopen2)
    as (_ & _ & _ & Hkeep & _).
  change (name_of (DumpName now) st) with (fst (newDumpFile now st)) in *.
  change (name_of (DumpName now) st1) with (fst (newDumpFile now st1)) in *.
  assert (fst (newDumpFile now st) <> fst (newDumpFile now st1)) as Hne.
  { intros Heq.
    destruct (name_first_free (DumpName now) st1) as (k & Hname & Hfree & _).
    change (name_of (DumpName now) st1) with (fst (newDumpFile now st1)) in Hname.
    rewrite <- Hname, <- Heq in Hfree. congruence. }
  split; [done |].
  assert (fs (snd (CatchException now stack2 (Some err2) st1)) !! fst (newDumpFile now st)
          = fs st1 !! fst (newDumpFile now st)) as Hsame by (apply Hkeep; eauto).
  split; [done |]. split.
  - exists n1, e1. by rewrite Hsame.
  - by exists n2, e2.
Qed.

Lemma CatchException_twice_witness :
  fst (newDumpFile t_sample st_boot) <>
  fst (newDumpFile t_sample
         (snd (CatchException t_sample "first" (Some (UserValue boom)) st_boot))).
Proof.
  apply (CatchException_twice t_sample "first" "second" (UserValue boom) NilDereference st_boot).
  - vm_compute. eauto.
  - vm_compute. eauto.
Defined.

Example CatchException_twice_names :
  let st1 := snd (CatchException t_sample "first" (Some (UserValue boom)) st_boot) in
  fst (newDumpFile t_sample st_boot) = "./exceptions/2015-05-16/exceptions.10_22_33.log" /\
  fst (newDumpFile t_sample st1) = "./exceptions/2015-05-16/exceptions.10_22_33_1.log".
Proof. vm_compute. split; reflexivity. Qed.

(** ** The first record of a new file *)

Lemma OpenFile_fresh (p : string) (st : State) (fd : nat) :
  fst (OS.OpenFile p st) = Some fd -> isFileExist p st = false ->
  fs (snd (OS.OpenFile p st)) !! p = Some empty_file.
Proof.
  unfold OS.OpenFile, isFileExist, OS.Stat. destruct (denied st p); [done |].
  destruct (fs st !! p) as [n |].
  - by destruct (IsDir n).
  - intros _ _. simpl. apply lookup_insert_eq.
Qed.

Section FirstRecord.

Variable Sprintf : string -> list value -> string.

(** One passing call on a handle whose logger holds descriptor [fd], open
    on [path], a regular file. *)
Lemma call_plain_appends (e : Env) (sv : severity) (sh : shape) (st : State)
    (f : LOG_FILE) (fd : nat) (path : string) (n : node) :
  (logLevel st <= level_of sv)%Z ->
  logFile st = Some f -> logger f = Some (mkLogger (Some fd) logFlags) ->
  fds st !! fd = Some path -> fs st !! path = Some n -> IsDir n = false ->
  let rec := file_record e (mkLogger (Some fd) logFlags) (record_text Sprintf sv sh) in
  fs (snd (call_plain Sprintf e sv sh st)) !! path =
    Some (mkNode false (Size n + Z.of_nat (String.length rec)) (data n ++ [rec])) /\
  forall q, q <> path -> fs (snd (call_plain Sprintf e sv sh st)) !! q = fs st !! q.
Proof.
  intros Hle Hf Hl Hfd Hp Hn. cbv zeta. rewrite call_plain_unfold.
  destruct (Z.leb_spec (logLevel st) (level_of sv)); [| lia].
  rewrite emit_fs, Hf, Hl. cbn [lg_out]. split.
  - by apply Write_appends.
  - intros q Hq.
    destruct (Write_cases (Some fd)
                (file_record e (mkLogger (Some fd) logFlags) (record_text Sprintf sv sh)) st q)
      as [Hw | (fd' & m & [= <-] & Hfd' & _)]; [done | congruence].
Qed.

(** X18. After an [Initialize] that returns, the log file is new and
    empty, and the first package-level call that passes the threshold makes
    its record the whole content of that file; no other path changes. *)
Theorem first_record_after_Initialize (fileDir fileName : string) (now : Time)
    (e : Env) (sv : severity) (sh : shape) (st : State) :
  fst (Initialize fileDir fileName now st) = Returned tt ->
  (logLevel st <= level_of sv)%Z ->
  let st1 := snd (Initialize fileDir fileName now st) in
  let st2 := snd (call_plain Sprintf e sv sh st1) in
  exists f rec,
    logFile st1 = Some f /\
    rec = formatHeader logFlags (now_output e) (caller_file e) (caller_line e)
            +:+ record_text Sprintf sv sh +:+ LF /\
    fs st1 !! logfilepath f = Some empty_file /\
    fs st2 !! logfilepath f = Some (mkNode false (Z.of_nat (String.length rec)) [rec]) /\
    forall q, q <> logfilepath f -> fs st2 !! q = fs st1 !! q.
Proof.
  intros Hret Hle. cbv zeta.
  destruct (Initialize_returned fileDir fileName now st Hret)
    as (f & H1 & H2 & H3 & _ & _ & H4 & _ & _ & H6 & H7 & _ & _ & H8 & _).
  assert (fs (snd (Initialize fileDir fileName now st)) !! logfilepath f = Some empty_file)
    as Hempty.
  { destruct (last_byte fileDir) as [c |] eqn:Hc;
      [| unfold Initialize in Hret; by rewrite Hc in Hret].
    revert Hret H1 H6.
    rewrite (Initialize_unfold fileDir fileName now st c Hc). cbv zeta.
    set (f0 := mkLOG_FILE _ fileName now "" None None).
    set (st2 := OS.MkdirAll _ _).
    pose proof (OpenFile_fresh (name_of (LogName f0) st) st2) as Hfresh.
    destruct (OS.OpenFile (name_of (LogName f0) st) st2) as [[fd |] st3]; [| done].
    intros _ [= <-] Hno. cbn in *. apply (Hfresh fd eq_refl).
    unfold st2. by rewrite isFileExist_MkdirAll. }
  set (rec := formatHeader logFlags (now_output e) (caller_file e) (caller_line e)
                +:+ record_text Sprintf sv sh +:+ LF).
  assert (file_record e (mkLogger (Some (next_fd st)) logFlags) (record_text Sprintf sv sh)
          = rec) as Hrec.
  { unfold file_record, log_record, rec. cbn [lg_flags].
    assert (ends_with_LF (record_text Sprintf sv sh) = false) as ->
      by (unfold record_text; apply TrimRight_LF_spec).
    done. }
  destruct (call_plain_appends e sv sh (snd (Initialize fileDir fileName now st)) f
              (next_fd st) (logfilepath f) empty_file) as [Hnew Hother].
  - by rewrite H8.
  - done.
  - done.
  - by rewrite H4, lookup_insert_eq.
  - done.
  - done.
  - exists f, rec. split; [done |]. split; [done |]. split; [done |].
    rewrite Hrec in Hnew. split; [exact Hnew | exact Hother].
Qed.

(** X19. After a rotation whose open succeeds, the first package-level
    call that passes the threshold makes its record the whole content of
    the new file, and every other path, the previous log file among them,
    stays as the rotation left it. *)
Theorem first_record_after_rename (f : LOG_FILE) (now : Time) (fd : nat)
    (e : Env) (sv : severity) (sh : shape) (st : State) :
  fst (OS.OpenFile (fst (rename_prepare f now st)) (snd (rename_prepare f now st))) = Some fd ->
  (logLevel st <= level_of sv)%Z ->
  let st1 := rename f now st in
  let st2 := snd (call_plain Sprintf e sv sh st1) in
  exists f' rec,
    logFile st1 = Some f' /\
    rec = formatHeader logFlags (now_output e) (caller_file e) (caller_line e)
            +:+ record_text Sprintf sv sh +:+ LF /\
    fs st2 !! logfilepath f' = Some (mkNode false (Z.of_nat (String.length rec)) [rec]) /\
    forall q, q <> logfilepath f' -> fs st2 !! q = fs st1 !! q.
Proof.
  intros Hopen Hle. cbv zeta.
  destruct (rename_facts f now st)
    as (f' & R1 & _ & _ & _ & R5 & R6 & R7 & R8 & _).
  rewrite Hopen in R6. rewrite R6 in R7.
  pose proof (rename_prepare_name_free f now st) as Hfree.
  assert (fds (rename f now st) !! fd = Some (logfilepath f') /\
          fs (rename f now st) !! logfilepath f' = Some empty_file) as [Hfd Hempty].
  { rewrite R5. rewrite rename_unfold.
    destruct (rename_prepare f now st) as [fn st2]. cbn [fst snd] in *.
    destruct (OpenFile_opened fn st2 fd Hopen) as (_ & Hf & _ & _).
    pose proof (OpenFile_fresh fn st2 fd Hopen Hfree) as Hfresh.
    destruct (OS.OpenFile fn st2) as [file st3]. cbn [fst snd] in *.
    unfold set_logFile. cbn [fds fs].
    split; [by rewrite Hf, lookup_insert_eq | done]. }
  set (rec := formatHeader logFlags (now_output e) (caller_file e) (caller_line e)
                +:+ record_text Sprintf sv sh +:+ LF).
  assert (file_record e (mkLogger (Some fd) logFlags) (record_text Sprintf sv sh) = rec)
    as Hrec.
  { unfold file_record, log_record, rec. cbn [lg_flags].
    assert (ends_with_LF (record_text Sprintf sv sh) = false) as ->
      by (unfold record_text; apply TrimRight_LF_spec).
    done. }
  destruct (call_plain_appends e sv sh (rename f now st) f' fd (logfilepath f') empty_file)
    as [Hnew Hother]; try done.
  - by rewrite R8.
  - exists f', rec. split; [done |]. split; [done |].
    rewrite Hrec in Hnew. split; [exact Hnew | exact Hother].
Qed.

End FirstRecord.

Lemma first_record_after_Initialize_witness :
  exists f rec,
    logFile st_running = Some f /\
    fs (snd (call_plain (fun fm _ => fm) e_sample SevInfo (Plain boom) st_running))
      !! logfilepath f = Some (mkNode false (Z.of_nat (String.length rec)) [rec]).
Proof.
  destruct (first_record_after_Initialize (fun fm _ => fm) "./log/" "login" t_sample
              e_sample SevInfo (Plain boom) st_boot) as (f & rec & H1 & _ & _ & H2 & _).
  - vm_compute. reflexivity.
  - vm_compute. congruence.
  - exists f, rec. split; [exact H1 | exact H2].
Defined.

Lemma first_record_after_rename_witness :
  exists f' rec,
    logFile (rename f_running t_later st_running) = Some f' /\
    fs (snd (call_plain (fun fm _ => fm) e_sample SevInfo (Plain boom)
               (rename f_running t_later st_running)))
      !! logfilepath f' = Some (mkNode false (Z.of_nat (String.length rec)) [rec]).
Proof.
  destruct (first_record_after_rename (fun fm _ => fm) f_running t_later 1
              e_sample SevInfo (Plain boom) st_running) as (f' & rec & H1 & _ & H2 & _).
  - vm_compute. reflexivity.
  - vm_compute. congruence.
  - exists f', rec. split; [exact H1 | exact H2].
Defined.

Lemma emission_keeps_state_witness :
  fds (snd (call_plain (fun fm _ => fm) e_sample SevError (Plain boom) st_running))
  = fds st_running.
Proof.
  apply (emission_keeps_state (fun fm _ => fm) e_sample true SevError (Plain boom) st_running).
  left. reflexivity.
Defined.

Lemma emission_appends_only_witness :
  fs (snd (call_verbose (fun fm _ => fm) e_sample true SevError (Plain boom) st_running))
    !! "./log/other.log" = None.
Proof.
  destruct (emission_appends_only (fun fm _ => fm) e_sample true SevError (Plain boom)
              st_running "./log/other.log"
              (snd (call_verbose (fun fm _ => fm) e_sample true SevError (Plain boom) st_running)))
    as [H | (f & lg & fd & n & _ & _ & _ & _ & Hn & _)].
  - right. reflexivity.
  - rewrite H. vm_compute. reflexivity.
  - vm_compute in Hn. discriminate Hn.
Defined.

(** * Arguments whose formatting fails *)

Lemma render_all_renders (args : list value) :
  Fallible.render_all (map Fallible.Renders args) = inl (map fmt_v args).
Proof.
  induction args as [| a args IH]; [done |]. simpl. by rewrite IH.
Qed.

Lemma Sprintln_renders (args : list value) :
  Fallible.Sprintln (map Fallible.Renders args) = Fallible.Text (Sprintln args).
Proof. unfold Fallible.Sprintln. by rewrite render_all_renders. Qed.

Section FallibleFacts.

Variable Sprintf : string -> list Fallible.operand -> Fallible.rendered.

Lemma fallible_call_plain_unfold (e : Env) (sv : severity) (sh : Fallible.shape) (st : State) :
  Fallible.call_plain Sprintf e sv sh st =
    if (logLevel st <=? level_of sv)%Z
    then Fallible.emit e sv (Fallible.message Sprintf sh) st
    else (Fallible.Done tt, st).
Proof.
  destruct sv, sh; cbn [Fallible.call_plain level_of Fallible.message];
    unfold Fallible.Debug, Fallible.Info, Fallible.Warn, Fallible.Error, Fallible.Fatal,
      Fallible.Debugf, Fallible.Infof, Fallible.Warnf, Fallible.Errorf, Fallible.Fatalf,
      Fallible.Debugln, Fallible.Infoln, Fallible.Warnln, Fallible.Errorln, Fallible.Fatalln,
      Fallible.emit, Fallible.with_defer;
    match goal with |- context [(?a <=? ?b)%Z] => destruct (a <=? b)%Z end;
    reflexivity.
Qed.

Lemma fallible_call_verbose_unfold (e : Env) (v : Verbose) (sv : severity)
    (sh : Fallible.shape) (st : State) :
  Fallible.call_verbose Sprintf e v sv sh st =
    if v then Fallible.emit e sv (Fallible.message Sprintf sh) st
    else (Fallible.Done tt, st).
Proof. destruct sv, sh, v; reflexivity. Qed.

End FallibleFacts.

(** What happens past the gate, by what formatting the arguments gives. *)
Lemma fallible_emit_text (e : Env) (sv : severity) (msg : string) (st : State) :
  Fallible.emit e sv (Fallible.Text msg) st =
    Fallible.lift (emit e (level_of sv) (TrimRight_LF (severity_name sv +:+ " " +:+ msg))) st.
Proof.
  unfold Fallible.emit, Fallible.with_defer, Fallible.lift, emit, with_defer.
  destruct (logFile st) as [f |]; [| reflexivity].
  destruct (logger f) as [lg |]; reflexivity.
Qed.

Lemma fallible_emit_printable (e : Env) (sv : severity) (p : panic_value) (st : State) :
  Fallible.emit e sv (Fallible.Thrown (Fallible.Printable p)) st =
    (Fallible.Done tt, log_Println ("err " +:+ panic_fmt_v p) st).
Proof. reflexivity. Qed.

Lemma fallible_emit_unprintable (e : Env) (sv : severity) (t : Fallible.thrown) (st : State) :
  Fallible.emit e sv (Fallible.Thrown (Fallible.Unprintable t)) st = (Fallible.Raised t, st).
Proof. reflexivity. Qed.


Section FallibleProperties.

Variable Sprintf : string -> list Fallible.operand -> Fallible.rendered.


End FallibleProperties.



(** On arguments that render, the entry points of [Fallible] are the
    entry points of the package as written first. *)
Lemma fallible_agrees (Sprintf : string -> list value -> string)
    (Sprintf_any : string -> list Fallible.operand -> Fallible.rendered)
    (e : Env) (v : Verbose) (sv : severity) (sh : shape) (st : State) :
  (forall fm args,
     Sprintf_any fm (map Fallible.Renders args) = Fallible.Text (Sprintf fm args)) ->
  Fallible.call_plain Sprintf_any e sv (fallible_shape sh) st =
    Fallible.lift (call_plain Sprintf e sv sh) st /\
  Fallible.call_verbose Sprintf_any e v sv (fallible_shape sh) st =
    Fallible.lift (call_verbose Sprintf e v sv sh) st.
Proof.
  intros HS.
  assert (Fallible.message Sprintf_any (fallible_shape sh) =
            Fallible.Text (message Sprintf sh)) as Hmsg.
  { destruct sh as [a | fm a | a]; simpl.
    - apply (Sprintln_renders [a]).
    - apply HS.
    - apply Sprintln_renders. }
  rewrite fallible_call_plain_unfold, fallible_call_verbose_unfold, Hmsg.
  rewrite fallible_emit_text.
  unfold Fallible.lift at 2 4. rewrite call_plain_unfold, call_verbose_unfold.
  split.
  - by destruct (logLevel st <=? level_of sv)%Z.
  - by destruct v.
Qed.
